(** * soywiki helper tools: the tree printer and the file picker

    A shallow embedding of [folder_structure_generator.py] (the printer)
    and [select_files.py] (the picker), and the properties of their
    ignore-pattern filtering, key assignment, selection loop and
    concatenation.

    Conventions of the embedding:
    - a Python [str] is the [string] of the bytes of its UTF-8 encoding,
      and [str.strip] removes the encodings of the Unicode white-space
      characters;
    - a normalised absolute path is the list of its components, so
      [os.path.join p name] appends a component, [os.path.basename]
      takes the last one, and [os.path.relpath(p, start).split(os.sep)]
      is computed on component lists;
    - a directory tree is an inductive [node]; the order of a directory's
      children is the order in which the operating system enumerates it;
    - [fnmatch.fnmatch] belongs to the Python standard library: the tools
      are parametric in it, and [fnmatchcase] below is an executable
      matcher used to run them on concrete inputs;
    - a Python [set] of indices is a [gset nat], enumerated in an order
      that the tools are parametric in; a [dict] built by a
      comprehension is the association list of its items in insertion
      order, and the inverse key table is a [gmap string nat];
    - the exceptions of the picker's file operations (opening, reading,
      writing and closing) are answers of the file system that the picker
      is parametric in; a write reaches the file when it is made; the
      console, the key reader and the clipboard library, apart from its
      own exception, are taken to raise nothing. *)

From Stdlib Require Import Ascii String List Arith Lia.
From stdpp Require Import gmap strings list sorting.
Import ListNotations.

Set Warnings "-register-all,-clear-no-such-hyp".

(** ** Python string primitives *)

Module Py.

Definition LF : string := String "010"%char "".

(** The UTF-8 encodings of the characters for which [str.isspace] holds:
    U+0009-000D, U+001C-0020; U+0085 and U+00A0; U+1680, U+2000-200A,
    U+2028, U+2029, U+202F, U+205F and U+3000. *)
Definition code (c : ascii) : nat := nat_of_ascii c.

Definition isspace1 (a : ascii) : bool :=
  ((9 <=? code a) && (code a <=? 13)) || ((28 <=? code a) && (code a <=? 32)).

Definition isspace2 (a b : ascii) : bool :=
  (code a =? 194) && ((code b =? 133) || (code b =? 160)).

Definition isspace3 (a b c : ascii) : bool :=
  ((code a =? 225) && (code b =? 154) && (code c =? 128))
  || ((code a =? 226) && (code b =? 128)
      && (((128 <=? code c) && (code c <=? 138))
          || (code c =? 168) || (code c =? 169) || (code c =? 175)))
  || ((code a =? 226) && (code b =? 129) && (code c =? 159))
  || ((code a =? 227) && (code b =? 128) && (code c =? 128)).

(** What follows the white-space character [s] starts with, if any. *)
Definition leading_space (s : string) : option string :=
  match s with
  | EmptyString => None
  | String a s1 =>
      if isspace1 a then Some s1
      else
        match s1 with
        | EmptyString => None
        | String b s2 =>
            if isspace2 a b then Some s2
            else
              match s2 with
              | EmptyString => None
              | String c s3 => if isspace3 a b c then Some s3 else None
              end
        end
  end.

(** [s.lstrip()] *)
Fixpoint lstrip (s : string) : string :=
  match s with
  | EmptyString => EmptyString
  | String a s1 =>
      if isspace1 a then lstrip s1
      else
        match s1 with
        | EmptyString => s
        | String b s2 =>
            if isspace2 a b then lstrip s2
            else
              match s2 with
              | EmptyString => s
              | String c s3 => if isspace3 a b c then lstrip s3 else s
              end
        end
  end.

(** [s.isspace()], also true of the empty string here. *)
Definition all_space (s : string) : bool :=
  match lstrip s with EmptyString => true | _ => false end.

(** [s.rstrip()]: the text before the white space [s] ends with. *)
Fixpoint rstrip (s : string) : string :=
  match s with
  | EmptyString => EmptyString
  | String a s1 => if all_space s then EmptyString else String a (rstrip s1)
  end.

(** [s.strip()] *)
Definition strip (s : string) : string := rstrip (lstrip s).

Fixpoint rstrip_with (drop : ascii -> bool) (s : string) : string :=
  match s with
  | EmptyString => EmptyString
  | String c s' =>
      match rstrip_with drop s' with
      | EmptyString => if drop c then EmptyString else String c EmptyString
      | r => String c r
      end
  end.

(** [s.rstrip(c)] for a one-character argument. *)
Definition rstrip_char (c : ascii) (s : string) : string :=
  rstrip_with (Ascii.eqb c) s.

(** [s.startswith(c)] and [s.endswith(c)] for a one-character argument. *)
Definition startswith_char (c : ascii) (s : string) : bool :=
  match s with
  | String c' _ => Ascii.eqb c' c
  | EmptyString => false
  end.

Fixpoint endswith_char (c : ascii) (s : string) : bool :=
  match s with
  | EmptyString => false
  | String c' EmptyString => Ascii.eqb c' c
  | String _ s' => endswith_char c s'
  end.

(** [bool(s)]: a string is truthy when it is not empty. *)
Definition truthy (s : string) : bool :=
  match s with EmptyString => false | _ => true end.

(** [sep.join(l)] *)
Fixpoint join (sep : string) (l : list string) : string :=
  match l with
  | [] => ""
  | [x] => x
  | x :: l' => x +:+ sep +:+ join sep l'
  end.

(** [list(s)]: the one-character strings of [s]. *)
Fixpoint list_of_str (s : string) : list string :=
  match s with
  | EmptyString => []
  | String c s' => String c EmptyString :: list_of_str s'
  end.

(** [for x in s] over a [set] of integers: the order in which a set is
    enumerated depends on its history and is left open; every member is
    visited once. *)
Record set_order := SetOrder {
  iter : gset nat -> list nat;
  iter_elements : forall s, iter s ≡ₚ elements s
}.

(** [l[idx]]: out of range raises [IndexError], here [None]. *)
Definition getitem {A} (l : list A) (idx : nat) : option A := l !! idx.

(** A [dict] as the list of its items in insertion order. *)
Definition dict (K V : Type) := list (K * V).

Fixpoint dict_get `{EqDecision K} {V} (d : dict K V) (k : K) : option V :=
  match d with
  | [] => None
  | (k', v) :: d' => if decide (k' = k) then Some v else dict_get d' k
  end.

(** [d[k] = v]: an existing key keeps its place, a new one goes last. *)
Fixpoint dict_set `{EqDecision K} {V} (d : dict K V) (k : K) (v : V)
    : dict K V :=
  match d with
  | [] => [(k, v)]
  | (k', v') :: d' =>
      if decide (k' = k) then (k', v) :: d' else (k', v') :: dict_set d' k v
  end.

(** [sorted(l)] on strings: insertion sort by code-point order. *)
Fixpoint insert_sorted {A} (key : A -> string) (x : A) (l : list A) : list A :=
  match l with
  | [] => [x]
  | y :: l' =>
      if String.leb (key x) (key y) then x :: l
      else y :: insert_sorted key x l'
  end.

Definition sorted_by {A} (key : A -> string) (l : list A) : list A :=
  foldr (insert_sorted key) [] l.

End Py.

(** ** An executable model of [fnmatch.fnmatchcase]

    Shell-style matching of a whole name: [*] matches any run of
    characters, [?] one character, [[seq]] one character of [seq] (with
    [lo-hi] ranges), [[!seq]] one character outside it; a [[] with no
    closing bracket stands for itself. *)

Module Fnmatch.

Inductive token :=
| Star
| Any
| Lit (c : ascii)
| Class (negated : bool) (ranges : list (ascii * ascii)).

Definition in_range (c : ascii) (r : ascii * ascii) : bool :=
  (nat_of_ascii (fst r) <=? nat_of_ascii c) &&
  (nat_of_ascii c <=? nat_of_ascii (snd r)).

Definition token_accepts (t : token) (c : ascii) : bool :=
  match t with
  | Star => true
  | Any => true
  | Lit c' => Ascii.eqb c c'
  | Class negated rs => xorb negated (existsb (in_range c) rs)
  end.

(** The members of a bracket expression, ranges first. *)
Fixpoint ranges_of (stuff : list ascii) : list (ascii * ascii) :=
  match stuff with
  | lo :: "-"%char :: hi :: rest => (lo, hi) :: ranges_of rest
  | c :: rest => (c, c) :: ranges_of rest
  | [] => []
  end.

(** Splits [pat] at the bracket that closes a class whose first member
    may itself be a bracket: the members, and what follows. *)
Fixpoint until_bracket (pat : list ascii) : option (list ascii * list ascii) :=
  match pat with
  | [] => None
  | "]"%char :: rest => Some ([], rest)
  | c :: rest =>
      match until_bracket rest with
      | Some (stuff, rest') => Some (c :: stuff, rest')
      | None => None
      end
  end.

Definition class_of (pat : list ascii) : option (token * list ascii) :=
  let '(negated, body) :=
    match pat with
    | "!"%char :: body => (true, body)
    | _ => (false, pat)
    end in
  let scanned :=
    match body with
    | "]"%char :: body' =>
        match until_bracket body' with
        | Some (stuff, rest) => Some ("]"%char :: stuff, rest)
        | None => None
        end
    | _ => until_bracket body
    end in
  match scanned with
  | Some (stuff, rest) => Some (Class negated (ranges_of stuff), rest)
  | None => None
  end.

Fixpoint tokens (fuel : nat) (pat : list ascii) : list token :=
  match fuel, pat with
  | 0, _ | _, [] => []
  | S fuel', "*"%char :: rest => Star :: tokens fuel' rest
  | S fuel', "?"%char :: rest => Any :: tokens fuel' rest
  | S fuel', "["%char :: rest =>
      match class_of rest with
      | Some (t, rest') => t :: tokens fuel' rest'
      | None => Lit "["%char :: tokens fuel' rest
      end
  | S fuel', c :: rest => Lit c :: tokens fuel' rest
  end.

Fixpoint matches (ts : list token) (name : list ascii) : bool :=
  match ts with
  | [] => match name with [] => true | _ => false end
  | Star :: ts' =>
      (fix star (name : list ascii) : bool :=
         matches ts' name ||
         match name with
         | [] => false
         | _ :: name' => star name'
         end) name
  | t :: ts' =>
      match name with
      | [] => false
      | c :: name' => token_accepts t c && matches ts' name'
      end
  end.

Definition fnmatchcase (name pat : string) : bool :=
  let p := list_ascii_of_string pat in
  matches (tokens (length p) p) (list_ascii_of_string name).

End Fnmatch.

(** ** Paths and directory trees *)

Module Os.

Definition path := list string.

Definition join (p : path) (name : string) : path := p ++ [name].

Definition basename (p : path) : string := List.last p "".

Fixpoint commonprefix (a b : path) : nat :=
  match a, b with
  | x :: a', y :: b' => if String.eqb x y then S (commonprefix a' b') else 0
  | _, _ => 0
  end.

(** [os.path.relpath(p, start).split(os.sep)] *)
Definition relpath_parts (p start : path) : list string :=
  let i := commonprefix start p in
  match repeat ".." (length start - i) ++ drop i p with
  | [] => ["."]
  | rel => rel
  end.

(** A file-system entry below the scanned directory. *)
Inductive node :=
| File (name : string)
| Dir (name : string) (entries : list node).

Definition name_of (n : node) : string :=
  match n with File name | Dir name _ => name end.

Definition isdir (n : node) : bool :=
  match n with Dir _ _ => true | File _ => false end.

(** How a path prints in an f-string. *)
Definition to_string (p : path) : string :=
  foldr (fun name rest => "/" +:+ name +:+ rest) "" p.

(** What the file system answers when a text file is opened and read. *)
Inductive read_error :=
| FileNotFoundError
| UnicodeDecodeError
| OtherError (message : string).

Inductive exn :=
| IndexError
| NotADirectoryError
| FileError (e : read_error).

Inductive outcome (A : Type) :=
| Done (a : A)
| Raise (e : exn).
Arguments Done {A} a.
Arguments Raise {A} e.

(** Sequencing: an exception raised by the first step ends the run. *)
#[global] Instance outcome_bind : MBind outcome := fun A B k m =>
  match m with
  | Done a => k a
  | Raise e => Raise e
  end.

(** [os.path.dirname] *)
Definition dirname (p : path) : path := removelast p.

(** [os.path.splitext] on a name without separators: the extension
    starts at the last dot, unless only dots stand before it. *)
Fixpoint split_last_dot (name : string) : option (string * string) :=
  match name with
  | EmptyString => None
  | String c name' =>
      match split_last_dot name' with
      | Some (root, ext) => Some (String c root, ext)
      | None => if Ascii.eqb c "." then Some (EmptyString, name) else None
      end
  end.

Fixpoint only_dots (s : string) : bool :=
  match s with
  | EmptyString => true
  | String c s' => Ascii.eqb c "." && only_dots s'
  end.

Definition splitext (name : string) : string * string :=
  match split_last_dot name with
  | Some (root, ext) =>
      if only_dots root then (name, EmptyString) else (root, ext)
  | None => (name, EmptyString)
  end.

End Os.


(** * The printer: [folder_structure_generator.py] *)

Module FolderStructureGenerator.

Definition DEFAULT_IGNORE_PATTERNS : list string :=
  ["__pycache__"; ".git"; "venv"; "tests"; "alembic"; "*.pyc"; "*.log"].

Record t := Generator {
  ignored_folders : gset string;
  ignore_file : string
}.

(** [__init__(self, ignored_folders=None, ignore_file=".treeignore")] *)
Definition init (ignored_folders : option (list string))
    (ignore_file : string) : t :=
  let ignored_folders := default [] ignored_folders in
  Generator (list_to_set DEFAULT_IGNORE_PATTERNS ∪ list_to_set ignored_folders)
            ignore_file.

Section Printer.

(** [fnmatch.fnmatch(name, pat)] *)
Variable fnmatch : string -> string -> bool.

(** The lines of a text file, [None] when [os.path.exists] is false. *)
Variable read_lines : Os.path -> option (list string).

Variable self : t.

(** [list(self.ignored_folders)] enumerates the set in an order of its
    own: [elements] stands for it, and nothing below depends on it. *)
Definition load_ignore_patterns (root_dir : Os.path) : list string :=
  let patterns := elements (ignored_folders self) in
  let ignore_path := Os.join root_dir (ignore_file self) in
  match read_lines ignore_path with
  | Some f =>
      let file_patterns :=
        Py.strip <$>
          List.filter
            (fun line =>
               Py.truthy (Py.strip line) && negb (Py.startswith_char "#" line))
            f in
      patterns ++ file_patterns
  | None => patterns
  end.

Fixpoint matches_ignore_pattern (ignore_patterns : list string)
    (entry : string) : bool :=
  match ignore_patterns with
  | [] => false
  | pattern :: ignore_patterns' =>
      if Py.endswith_char "/" pattern then
        let dir_pattern := Py.rstrip_char "/" pattern in
        if bool_decide (dir_pattern = entry) then true
        else matches_ignore_pattern ignore_patterns' entry
      else
        if fnmatch entry pattern then true
        else matches_ignore_pattern ignore_patterns' entry
  end.

(** One name of [os.listdir(dir_path)], whether it is a directory, and
    the call [recurse] makes on it when it is. *)
Record listed := Listed {
  entry_name : string;
  entry_isdir : bool;
  descend : Os.path -> string -> list (Os.path * string)
}.

(** The lines one entry adds to [tree_lines], each with the [path] of the
    entry it was added for. *)
Definition entry_lines (dir_path : Os.path) (prefix : string)
    (count i : nat) (e : listed) : list (Os.path * string) :=
  let entry := entry_name e in
  let path := Os.join dir_path entry in
  let connector := if i <? count - 1 then "├── " else "└── " in
  if entry_isdir e then
    let new_prefix := prefix +:+ (if i <? count - 1 then "│   " else "    ") in
    (path, prefix +:+ connector +:+ entry +:+ "/") :: descend e path new_prefix
  else
    [(path, prefix +:+ connector +:+ entry)].

Definition visible (ignore_patterns : list string) (listing : list listed)
    : list listed :=
  let entries := Py.sorted_by entry_name listing in
  let entries :=
    List.filter (fun e => negb (bool_decide (entry_name e = ignore_file self)))
                entries in
  List.filter (fun e => negb (matches_ignore_pattern ignore_patterns (entry_name e)))
              entries.

(** [recurse(dir_path, prefix)] on the directory [dir]. *)
Fixpoint recurse (ignore_patterns : list string) (dir : Os.node)
    (dir_path : Os.path) (prefix : string) : list (Os.path * string) :=
  match dir with
  | Os.File _ => []
  | Os.Dir _ children =>
      let listing :=
        List.map (fun c => Listed (Os.name_of c) (Os.isdir c)
                                  (recurse ignore_patterns c))
                 children in
      let entries := visible ignore_patterns listing in
      concat (imap (entry_lines dir_path prefix (length entries)) entries)
  end.

(** [root] is what [current_directory] names, [None] when nothing does.
    Returns [tree_str] and, when [output_path] is given, the file written. *)
Definition generate_folder_structure_txt (current_directory : Os.path)
    (root : option Os.node) (output_path : option string)
    : Os.outcome (string * option (string * string)) :=
  match root with
  | None => Os.Raise (Os.FileError Os.FileNotFoundError)
  | Some (Os.File _) => Os.Raise Os.NotADirectoryError
  | Some (Os.Dir _ children as dir) =>
      let ignore_patterns := load_ignore_patterns current_directory in
      let tree_lines :=
        (Os.basename current_directory +:+ "/")
        :: (snd <$> recurse ignore_patterns dir current_directory "") in
      let tree_str := Py.join Py.LF tree_lines +:+ Py.LF in
      match output_path with
      | Some out => Os.Done (tree_str, Some (out, tree_str))
      | None => Os.Done (tree_str, None)
      end
  end.

(** The paths of the entries of the render tree. *)
Definition render_tree (current_directory : Os.path) (dir : Os.node)
    : list Os.path :=
  fst <$> recurse (load_ignore_patterns current_directory) dir
                  current_directory "".

End Printer.

(** [main] builds the generator with its defaults. *)
Definition main fnmatch read_lines (root_dir : Os.path)
    (root : option Os.node) (output : option string) :=
  generate_folder_structure_txt fnmatch read_lines
    (init None ".treeignore") root_dir root output.

End FolderStructureGenerator.

(** * The picker: [select_files.py] *)

Module SelectFiles.

Section Picker.

(** [fnmatch.fnmatch(name, pat)] *)
Variable fnmatch : string -> string -> bool.

(** The lines of a text file, [None] when [os.path.exists] is false. *)
Variable read_lines : Os.path -> option (list string).

Definition load_ignore_patterns (ignore_files : list Os.path) : list string :=
  foldl (fun patterns ignore_file =>
           match read_lines ignore_file with
           | Some f =>
               foldl (fun patterns line =>
                        let line := Py.strip line in
                        if Py.truthy line && negb (Py.startswith_char "#" line)
                        then patterns ++ [line]
                        else patterns)
                     patterns f
           | None => patterns
           end)
        [] ignore_files.

Fixpoint is_ignored (path : Os.path) (patterns : list string)
    (root_dir : Os.path) : bool :=
  let path_parts := Os.relpath_parts path root_dir in
  match patterns with
  | [] => false
  | pattern :: patterns' =>
      if Py.endswith_char "/" pattern then
        let dir_pattern := Py.rstrip_char "/" pattern in
        if bool_decide (dir_pattern ∈ path_parts) then true
        else is_ignored path patterns' root_dir
      else
        if fnmatch (Os.basename path) pattern then true
        else is_ignored path patterns' root_dir
  end.

(** The body of the loop over [os.walk], for the directory [top] found at
    [dirpath]: its surviving files, then the walk of each directory that
    stayed in [dirnames]. *)
Fixpoint walk (ignore_patterns : list string) (root_dir dirpath : Os.path)
    (top : Os.node) : list Os.path :=
  match top with
  | Os.File _ => []
  | Os.Dir _ entries =>
      let filenames :=
        Os.name_of <$> List.filter (fun e => negb (Os.isdir e)) entries in
      let files :=
        List.filter
          (fun file_abs_path =>
             negb (is_ignored file_abs_path ignore_patterns root_dir))
          (Os.join dirpath <$> filenames) in
      files ++
      flat_map
        (fun d =>
           if Os.isdir d &&
              negb (is_ignored (Os.join dirpath (Os.name_of d))
                      ignore_patterns root_dir)
           then walk ignore_patterns root_dir
                     (Os.join dirpath (Os.name_of d)) d
           else [])
        entries
  end.

Definition list_files (root_dir : Os.path) (entries : list Os.node)
    (ignore_files : list Os.path) : list Os.path :=
  let ignore_patterns := load_ignore_patterns ignore_files in
  walk ignore_patterns root_dir root_dir (Os.Dir (Os.basename root_dir) entries).

(** *** The table on the screen *)

Definition get_folder_colors : list string :=
  ["bright_red"; "bright_green"; "bright_yellow"; "bright_blue";
   "bright_magenta"; "bright_cyan"; "bright_white"; "orange1";
   "deep_sky_blue1"; "spring_green1"; "gold1"; "deep_pink1";
   "light_sea_green"; "purple"; "khaki1"; "medium_violet_red"].

(** [enumerate(l)] *)
Definition enumerate {A} (l : list A) : list (nat * A) := imap pair l.

(** The set of folders is enumerated in an order of its own, for which
    [elements] stands; [None] when [colors[...]] raises. *)
Definition assign_folder_colors (files : list Os.path)
    : option (gmap Os.path string) :=
  let folders : gset Os.path := list_to_set (Os.dirname <$> files) in
  let colors := get_folder_colors in
  foldl (fun acc item =>
           d ← acc;
           color ← Py.getitem colors (item.1 mod length colors);
           Some (<[item.2 := color]> d))
        (Some ∅) (enumerate (elements folders)).

(** One row of the table: the five cells given to [table.add_row]. *)
Record row := Row {
  selected_mark : string;
  key_cell : string;
  filename_cell : string;
  folder_cell : string;
  extension_cell : string
}.

(** The rows added to the table, in order; [None] when
    [folder_colors[folder]] raises [KeyError]. Clearing the console and
    printing the table are left to the console. *)
Definition display_files (files : list Os.path) (selected : gset nat)
    (key_mapping : Py.dict nat string) : option (list row) :=
  folder_colors ← assign_folder_colors files;
  mapM (fun item : nat * Os.path =>
          let '(idx, file) := item in
          let key := default "?" (Py.dict_get key_mapping idx) in
          let selected_mark :=
            if decide (idx ∈ selected) then "[green]✔️[/green]" else "" in
          let filename := Os.basename file in
          let '(name, ext) := Os.splitext filename in
          let folder := Os.dirname file in
          let folder_name := Os.basename folder in
          file_color ← folder_colors !! folder;
          Some (Row selected_mark key
                    ("[" +:+ file_color +:+ "]" +:+ name
                     +:+ "[/" +:+ file_color +:+ "]")
                    folder_name ext))
       (enumerate files).

(** [{idx: key_sequence[idx] for idx in range(n)}] *)
Definition keys_of_range (key_sequence : list string) (n : nat)
    : Os.outcome (Py.dict nat string) :=
  foldl (fun acc idx =>
           d ← acc;
           match Py.getitem key_sequence idx with
           | Some key => Os.Done (Py.dict_set d idx key)
           | None => Os.Raise Os.IndexError
           end)
        (Os.Done []) (seq 0 n).

(** Returns the index-to-key table and whether files were left without a
    key (the message printed in that case is console output). *)
Definition assign_keys (num_files : nat) (key_sequence : list string)
    : Os.outcome (Py.dict nat string * bool) :=
  if decide (length key_sequence < num_files) then
    d ← keys_of_range key_sequence (length key_sequence); Os.Done (d, true)
  else
    d ← keys_of_range key_sequence num_files; Os.Done (d, false).

(** [{v: k for k, v in keys.items()}] *)
Definition get_key_mapping (keys : Py.dict nat string) : gmap string nat :=
  foldl (fun acc item => <[item.2 := item.1]> acc) ∅ keys.

(** *** Concatenation *)

Inductive read_result :=
| Content (text : string)
| Failed (e : Os.read_error).

(** [os.path.exists] *)
Variable exists_ : Os.path -> bool.
(** What [open(p, 'r').read()] answers, with the default encoding and
    with [encoding='utf-8']. *)
Variable open_read_locale : Os.path -> read_result.
Variable open_read : Os.path -> read_result.
(** The exception [open(p, 'w')] raises, if any. *)
Variable open_write : Os.path -> option Os.read_error.
(** The exception [outfile.write(text)] raises, if any, on a file that
    holds [written]; a write that raises leaves the file as it was. *)
Variable outfile_write : forall (written text : string), option Os.read_error.
(** The exception raised when the output file is closed, if any. *)
Variable outfile_close : option Os.read_error.
(** Whether [pyperclip.copy] succeeds. *)
Variable clipboard_works : bool.
(** The order of [for idx in selected]. *)
Variable order : Py.set_order.

Record state := State {
  output_content : string;
  outfile : string;
  stdout : list string;
  clipboard : option string
}.

(** [output_content += text] *)
Definition add_content (st : state) (text : string) : state :=
  State (output_content st +:+ text) (outfile st) (stdout st) (clipboard st).

(** The state once [outfile.write(text)] has returned. *)
Definition written (st : state) (text : string) : state :=
  State (output_content st) (outfile st +:+ text) (stdout st) (clipboard st).

Definition print (st : state) (text : string) : state :=
  State (output_content st) (outfile st) (stdout st ++ [text]) (clipboard st).

Definition file_block (file_path : Os.path) (content : string) : string :=
  "# " +:+ Os.to_string file_path +:+ Py.LF +:+ content +:+ Py.LF.

Definition read_warning (file_path : Os.path) (e : Os.read_error) : string :=
  match e with
  | Os.FileNotFoundError =>
      "Warning: Could not find file " +:+ Os.to_string file_path
      +:+ ". Skipping."
  | Os.UnicodeDecodeError =>
      "Warning: Could not decode file " +:+ Os.to_string file_path
      +:+ ". Skipping."
  | Os.OtherError message =>
      "Warning: Could not read file " +:+ Os.to_string file_path
      +:+ ". Error: " +:+ message +:+ ". Skipping."
  end.

(** One turn of [for idx in selected]: [files[idx]] is outside the [try];
    the read, the extension of [output_content] and the write are inside
    it, in this order, so that an exception of the write is caught by
    [except Exception] after [output_content] was extended. *)
Definition append_selected (files : list Os.path) (st : state) (idx : nat)
    : Os.outcome state :=
  match Py.getitem files idx with
  | None => Os.Raise Os.IndexError
  | Some file_path =>
      match open_read file_path with
      | Content content =>
          let block := file_block file_path content in
          let st := add_content st block in
          match outfile_write (outfile st) block with
          | None => Os.Done (written st block)
          | Some e => Os.Done (print st (read_warning file_path e))
          end
      | Failed e => Os.Done (print st (read_warning file_path e))
      end
  end.

Fixpoint for_each {A S} (body : S -> A -> Os.outcome S) (st : S) (l : list A)
    : Os.outcome S :=
  match l with
  | [] => Os.Done st
  | x :: l' => st' ← body st x; for_each body st' l'
  end.

(** The part of [concatenate_selected_files] about [tree.txt]; nothing
    here is inside a [try]. *)
Definition include_tree (st : state) (tree_file : Os.path)
    : Os.outcome state :=
  if exists_ tree_file then
    match open_read_locale tree_file with
    | Content tree_content =>
        let block := file_block tree_file tree_content in
        let st := add_content st block in
        match outfile_write (outfile st) block with
        | None => Os.Done (written st block)
        | Some e => Os.Raise (Os.FileError e)
        end
    | Failed e => Os.Raise (Os.FileError e)
    end
  else
    Os.Done (print st ("Warning: " +:+ Os.to_string tree_file
                       +:+ " does not exist and will not be included.")).

(** The copy to the clipboard and the closing message. *)
Definition copy_to_clipboard (st : state) (output_file : Os.path) : state :=
  if clipboard_works then
    print (State (output_content st) (outfile st) (stdout st)
                 (Some (output_content st)))
          ("Files concatenated into " +:+ Os.to_string output_file
           +:+ " and copied to clipboard.")
  else
    print st ("Files concatenated into " +:+ Os.to_string output_file
              +:+ ". Failed to copy to clipboard.").

(** The statement [with open(output_file, 'w') as outfile]: the file is
    closed when the body ends, normally or not, and an exception of the
    closing replaces that of the body. *)
Definition fill_output_file (st : state) (output_file : Os.path)
    (selected : gset nat) (files : list Os.path) (root_dir : Os.path)
    : Os.outcome state :=
  match open_write output_file with
  | Some e => Os.Raise (Os.FileError e)
  | None =>
      let body :=
        let tree_file := Os.join root_dir "tree.txt" in
        st ← include_tree st tree_file;
        for_each (append_selected files) st (Py.iter order selected) in
      match outfile_close with
      | Some e => Os.Raise (Os.FileError e)
      | None => body
      end
  end.

Definition concatenate_selected_files (selected : gset nat)
    (files : list Os.path) (root_dir : Os.path) : Os.outcome state :=
  let st := State "" "" [] None in
  let output_file := Os.join root_dir "concatenated_output.txt" in
  st ← fill_output_file st output_file selected files root_dir;
  Os.Done (copy_to_clipboard st output_file).

(** *** The selection loop *)

Inductive session :=
| Browsing (selected : gset nat)
| Committed (selected : gset nat).

(** One turn of the [while True] loop on the key that was read. *)
Definition handle_key (key_to_index : gmap string nat) (selected : gset nat)
    (key : string) : session :=
  if decide (key = Py.LF) then Committed selected
  else
    match key_to_index !! key with
    | Some idx =>
        if decide (idx ∈ selected) then Browsing (selected ∖ {[idx]})
        else Browsing (selected ∪ {[idx]})
    | None => Browsing selected
    end.

(** The loop over the keys that [readchar.readkey] returns; [None] when
    the keys run out before Enter (the loop goes on waiting). *)
Fixpoint session_loop (key_to_index : gmap string nat) (selected : gset nat)
    (keys : list string) : option (gset nat) :=
  match keys with
  | [] => None
  | key :: keys' =>
      match handle_key key_to_index selected key with
      | Committed selected' => Some selected'
      | Browsing selected' => session_loop key_to_index selected' keys'
      end
  end.

Definition interactive_file_selection (files : list Os.path)
    (key_mapping : Py.dict nat string) (root_dir : Os.path)
    (keys : list string) : option (gset nat) :=
  let selected : gset nat := ∅ in
  let key_to_index := get_key_mapping key_mapping in
  session_loop key_to_index selected keys.

(** *** The command *)

Definition key_sequence : list string :=
  Py.list_of_str
    "aAbBcCdDeEfFgGhHiIjJkKlLmMnNoOpPqQrRsStT1234567890!@#$%^&*()".

Inductive result :=
| SysExit (code : nat)
| AwaitingInput
| Completed (st : state).

(** The exception raised while an ignore file that exists is opened and
    its lines are read, if any; [read_lines] gives the lines of a file for
    which none is. *)
Variable read_raises : Os.path -> option Os.read_error.

(** The exception [load_ignore_patterns] ends on, if any: that of the
    first existing ignore file whose reading raises. *)
Fixpoint load_ignore_patterns_raises (ignore_files : list Os.path)
    : option Os.read_error :=
  match ignore_files with
  | [] => None
  | ignore_file :: ignore_files' =>
      match read_lines ignore_file, read_raises ignore_file with
      | Some _, Some e => Some e
      | _, _ => load_ignore_patterns_raises ignore_files'
      end
  end.

(** [root] is the content of [root_dir], [None] when it is no directory;
    [keys] are the keys the user presses. [list_files] starts by loading
    the ignore patterns, and an exception raised there ends [main]. *)
Definition main (root_dir : Os.path) (root : option (list Os.node))
    (keys : list string) : Os.outcome result :=
  match root with
  | None => Os.Done (SysExit 1)
  | Some entries =>
      let gitignore := Os.join root_dir ".gitignore" in
      let selectignore := Os.join root_dir ".selectignore" in
      let ignore_files := [gitignore; selectignore] in
      match load_ignore_patterns_raises ignore_files with
      | Some e => Os.Raise (Os.FileError e)
      | None =>
          let files := list_files root_dir entries ignore_files in
          match files with
          | [] => Os.Done (SysExit 0)
          | _ =>
              km ← assign_keys (length files) key_sequence;
              let '(key_mapping, paging_required) := km in
              match interactive_file_selection files key_mapping root_dir
                      keys with
              | None => Os.Done AwaitingInput
              | Some selected =>
                  _ ← for_each (fun (_ : unit) idx =>
                                  match Py.getitem files idx with
                                  | Some _ => Os.Done ()
                                  | None => Os.Raise Os.IndexError
                                  end) () (Py.iter order selected);
                  st ← concatenate_selected_files selected files root_dir;
                  Os.Done (Completed st)
              end
          end
      end
  end.

End Picker.

End SelectFiles.

(** * Vocabulary of the statements *)

(** Induction over a tree, with the property known of every child. *)
Fixpoint node_rect' (P : Os.node -> Prop)
    (HFile : forall name, P (Os.File name))
    (HDir : forall name entries, Forall P entries -> P (Os.Dir name entries))
    (n : Os.node) : P n :=
  match n with
  | Os.File name => HFile name
  | Os.Dir name entries =>
      HDir name entries
        ((fix children (es : list Os.node) : Forall P es :=
            match es with
            | [] => @List.Forall_nil _ P
            | e :: es' =>
                @List.Forall_cons _ P e es' (node_rect' P HFile HDir e) (children es')
            end) entries)
  end.

(** A name is admissible when the printer would keep an entry of that
    name. *)
Definition admissible (fnmatch : string -> string -> bool)
    (self : FolderStructureGenerator.t)
    (patterns : list string) (name : string) : Prop :=
  name <> FolderStructureGenerator.ignore_file self /\
  FolderStructureGenerator.matches_ignore_pattern fnmatch patterns name = false.


(** What the selected files add to the artifact, and the warnings they
    cause, in the order in which the selection is enumerated. *)
Definition blocks_of (open_read : Os.path -> SelectFiles.read_result)
    (files : list Os.path) (indices : list nat) : string :=
  foldr (fun idx rest =>
           match files !! idx with
           | Some file_path =>
               match open_read file_path with
               | SelectFiles.Content content =>
                   SelectFiles.file_block file_path content +:+ rest
               | SelectFiles.Failed _ => rest
               end
           | None => rest
           end) "" indices.

(** [tree.txt] is no obstacle: when it exists it can be read, and its
    block can be written to the output file, which is still empty. *)
Definition tree_included (exists_ : Os.path -> bool)
    (open_read_locale : Os.path -> SelectFiles.read_result)
    (outfile_write : string -> string -> option Os.read_error)
    (root_dir : Os.path) : Prop :=
  let tree_file := Os.join root_dir "tree.txt" in
  exists_ tree_file = true ->
  exists tree_content,
    open_read_locale tree_file = SelectFiles.Content tree_content /\
    outfile_write "" (SelectFiles.file_block tree_file tree_content) = None.

(** [tree.txt] exists, and reading it or writing its block raises [e]. *)
Definition tree_raises (exists_ : Os.path -> bool)
    (open_read_locale : Os.path -> SelectFiles.read_result)
    (outfile_write : string -> string -> option Os.read_error)
    (root_dir : Os.path) (e : Os.read_error) : Prop :=
  let tree_file := Os.join root_dir "tree.txt" in
  exists_ tree_file = true /\
  (open_read_locale tree_file = SelectFiles.Failed e \/
   exists tree_content,
     open_read_locale tree_file = SelectFiles.Content tree_content /\
     outfile_write "" (SelectFiles.file_block tree_file tree_content)
     = Some e).


(** The patterns one ignore file contributes to the picker. *)
Definition surviving_lines (lines : list string) : list string :=
  List.filter
    (fun line => Py.truthy line && negb (Py.startswith_char "#" line))
    (Py.strip <$> lines).

(** The entries of a directory, none for a file. *)
Definition children_of (n : Os.node) : list Os.node :=
  match n with Os.Dir _ entries => entries | Os.File _ => [] end.

(** [entry_at entries rel n]: following the names [rel] from the listing
    [entries] of a directory leads to the entry [n]. *)
Inductive entry_at : list Os.node -> list string -> Os.node -> Prop :=
| entry_here entries n :
    n ∈ entries -> entry_at entries [Os.name_of n] n
| entry_below entries d children rel n :
    Os.Dir d children ∈ entries ->
    entry_at children rel n ->
    entry_at entries (d :: rel) n.

(** A pattern of the list excludes [path] in the picker. *)
Definition excludes (fnmatch : string -> string -> bool)
    (path root_dir : Os.path) (pattern : string) : bool :=
  if Py.endswith_char "/" pattern
  then bool_decide (Py.rstrip_char "/" pattern
                      ∈ Os.relpath_parts path root_dir)
  else fnmatch (Os.basename path) pattern.

(** No path from [dirpath] down to [dirpath ++ rel] is ignored by the
    picker: neither the entry itself nor a directory above it. *)
Fixpoint kept (fnmatch : string -> string -> bool) (patterns : list string)
    (root_dir dirpath : Os.path) (rel : list string) : bool :=
  match rel with
  | [] => true
  | name :: rel' =>
      negb (SelectFiles.is_ignored fnmatch (Os.join dirpath name)
              patterns root_dir)
      && kept fnmatch patterns root_dir (Os.join dirpath name) rel'
  end.

(** How many of the keys pressed toggle the index [idx]. *)
Definition presses (key_to_index : gmap string nat) (idx : nat)
    (keys : list string) : nat :=
  length (List.filter (fun key => bool_decide (key_to_index !! key = Some idx))
                      keys).

(** The indentation of a line: one unit for each directory between the
    printed directory and the entry. *)
Definition indentation (units : list string) : string :=
  foldr String.append "" units.

Definition indent_unit (unit : string) : Prop :=
  unit = "│   " \/ unit = "    ".

Definition connector (text : string) : Prop :=
  text = "├── " \/ text = "└── ".

(** [reordered t t']: the trees [t] and [t'] hold the same entries, the
    entries of some directories being enumerated in another order.
    Entries that change places have different names. *)
Inductive reordered : Os.node -> Os.node -> Prop :=
| reordered_file name : reordered (Os.File name) (Os.File name)
| reordered_dir name entries entries' :
    reordered_list entries entries' ->
    reordered (Os.Dir name entries) (Os.Dir name entries')
with reordered_list : list Os.node -> list Os.node -> Prop :=
| reordered_nil : reordered_list [] []
| reordered_skip x y l l' :
    reordered x y -> reordered_list l l' -> reordered_list (x :: l) (y :: l')
| reordered_swap x y l :
    Os.name_of x <> Os.name_of y ->
    reordered_list (x :: y :: l) (y :: x :: l)
| reordered_trans l1 l2 l3 :
    reordered_list l1 l2 -> reordered_list l2 l3 -> reordered_list l1 l3.

Scheme reordered_mut := Minimality for reordered Sort Prop
  with reordered_list_mut := Minimality for reordered_list Sort Prop.

(** Two listed entries that the printer cannot tell apart. *)
Definition alike (e e' : FolderStructureGenerator.listed) : Prop :=
  FolderStructureGenerator.entry_name e
  = FolderStructureGenerator.entry_name e' /\
  FolderStructureGenerator.entry_isdir e
  = FolderStructureGenerator.entry_isdir e' /\
  forall dir_path prefix,
    FolderStructureGenerator.descend e dir_path prefix
    = FolderStructureGenerator.descend e' dir_path prefix.

(** Names in ascending order of their characters. *)
Fixpoint ascending (names : list string) : Prop :=
  match names with
  | [] => True
  | name :: names' =>
      Forall (fun later => String.leb name later = true) names'
      /\ ascending names'
  end.

(** Sibling names are distinct in every directory of the tree. *)
Fixpoint distinct_names (n : Os.node) : Prop :=
  match n with
  | Os.File _ => True
  | Os.Dir _ entries =>
      NoDup (Os.name_of <$> entries) /\
      (fix all (es : list Os.node) : Prop :=
         match es with
         | [] => True
         | e :: es' => distinct_names e /\ all es'
         end) entries
  end.

(** The picker's test on a path given relative to the scanned
    directory, and its walk in relative paths. *)
Definition ignored_rel (fnmatch : string -> string -> bool)
    (patterns : list string) (rel : list string) : bool :=
  existsb (fun pattern =>
             if Py.endswith_char "/" pattern
             then bool_decide (Py.rstrip_char "/" pattern ∈ rel)
             else fnmatch (List.last rel "") pattern)
          patterns.

Fixpoint rel_walk (fnmatch : string -> string -> bool)
    (patterns : list string) (cur : list string) (top : Os.node)
    : list (list string) :=
  match top with
  | Os.File _ => []
  | Os.Dir _ entries =>
      List.filter (fun rel => negb (ignored_rel fnmatch patterns rel))
        ((fun file => cur ++ [file]) <$>
           (Os.name_of <$> List.filter (fun e => negb (Os.isdir e)) entries))
      ++
      flat_map
        (fun d =>
           if Os.isdir d
              && negb (ignored_rel fnmatch patterns (cur ++ [Os.name_of d]))
           then rel_walk fnmatch patterns (cur ++ [Os.name_of d]) d
           else [])
        entries
  end.

(** ** Sample inputs *)

(** A small project used to run the tools: a build directory, a source
    file, and the ignore files of both tools naming the build directory. *)
Definition sample_root : Os.path := ["home"; "proj"].

Definition sample_entries : list Os.node :=
  [Os.Dir "build" [Os.File "out.o"; Os.Dir "gen" [Os.File "x.py"]];
   Os.File ".gitignore"; Os.File ".treeignore"; Os.File "main.py"].

Definition sample_read_lines (p : Os.path) : option (list string) :=
  if bool_decide (p = ["home"; "proj"; ".gitignore"]) then
    Some ["# build output" +:+ Py.LF; "build/" +:+ Py.LF]
  else if bool_decide (p = ["home"; "proj"; ".treeignore"]) then
    Some ["build/" +:+ Py.LF]
  else None.

Definition sample_printer : FolderStructureGenerator.t :=
  FolderStructureGenerator.init None ".treeignore".

(** Three files are selected and the second one has been deleted. *)
Definition sample_files : list Os.path :=
  [["tmp"; "a.txt"]; ["tmp"; "b.txt"]; ["tmp"; "c.txt"]].

Definition sample_open_read (p : Os.path) : SelectFiles.read_result :=
  if bool_decide (p = ["tmp"; "a.txt"]) then SelectFiles.Content "A"
  else if bool_decide (p = ["tmp"; "c.txt"]) then SelectFiles.Content "C"
  else SelectFiles.Failed Os.FileNotFoundError.

(** A file system on which every file can be opened for writing and
    every write succeeds, and one whose disk is full. *)
Definition sample_open_write (p : Os.path) : option Os.read_error := None.

Definition sample_outfile_write (written text : string)
    : option Os.read_error := None.







(** One enumeration order, the ascending one. *)
Definition ascending_order : Py.set_order :=
  Py.SetOrder (fun s => merge_sort le (elements s))
              (fun s => merge_sort_Permutation le (elements s)).



(** A project with a bytecode cache below its sources; the ignore file
    of the picker names the cache by a pattern without a separator. *)
Definition cache_entries : list Os.node :=
  [Os.Dir "src" [Os.File "main.py";
                 Os.Dir "__pycache__" [Os.File "main.cpython-311.pyc"]];
   Os.File "README"].

Definition cache_read_lines (p : Os.path) : option (list string) :=
  if bool_decide (p = ["home"; "proj"; ".gitignore"]) then
    Some ["  __pycache__  " +:+ Py.LF; Py.LF; "#notes" +:+ Py.LF]
  else None.

(** * Properties *)

(** ** Paths *)

Lemma commonprefix_app (root rel : Os.path) :
  Os.commonprefix root (root ++ rel) = length root.
Proof.
  induction root as [|x root IH]; simpl.
  - by destruct rel.
  - by rewrite String.eqb_refl, IH.
Qed.

Lemma relpath_parts_below (root rel : Os.path) :
  rel <> [] -> Os.relpath_parts (root ++ rel) root = rel.
Proof.
  intros Hrel. unfold Os.relpath_parts.
  rewrite commonprefix_app, Nat.sub_diag, drop_app_length. simpl.
  by destruct rel.
Qed.

Lemma basename_join (p : Os.path) (name : string) :
  Os.basename (Os.join p name) = name.
Proof. unfold Os.basename, Os.join. apply last_last. Qed.

(** ** Sorting keeps the entries *)

Lemma insert_sorted_perm {A} (key : A -> string) (x : A) (l : list A) :
  Py.insert_sorted key x l ≡ₚ x :: l.
Proof.
  induction l as [|y l IH]; simpl; [done|].
  destruct (String.leb _ _); [done|].
  rewrite IH. apply Permutation_swap.
Qed.

Lemma sorted_by_perm {A} (key : A -> string) (l : list A) :
  Py.sorted_by key l ≡ₚ l.
Proof.
  induction l as [|x l IH]; simpl; [done|].
  unfold Py.sorted_by in *. simpl. by rewrite insert_sorted_perm, IH.
Qed.

(** ** Pattern matching of the picker *)

Section PickerPatterns.

Variable fnmatch : string -> string -> bool.

(** A directory-exact pattern excludes every path one of whose components
    it names. *)
Lemma is_ignored_dir_pattern path patterns root_dir pattern :
  pattern ∈ patterns ->
  Py.endswith_char "/" pattern = true ->
  Py.rstrip_char "/" pattern ∈ Os.relpath_parts path root_dir ->
  SelectFiles.is_ignored fnmatch path patterns root_dir = true.
Proof.
  intros Hin Hdir Hpart.
  induction patterns as [|q patterns IH]; [by apply elem_of_nil in Hin|].
  apply elem_of_cons in Hin as [<-|Hin]; simpl.
  - rewrite Hdir. by rewrite bool_decide_eq_true_2.
  - destruct (Py.endswith_char "/" q).
    + case_bool_decide; [done|]. by apply IH.
    + destruct (fnmatch _ q); [done|]. by apply IH.
Qed.

(** With glob patterns only, the decision is a function of the base name. *)
Lemma is_ignored_globs path patterns root_dir :
  Forall (fun pattern => Py.endswith_char "/" pattern = false) patterns ->
  SelectFiles.is_ignored fnmatch path patterns root_dir
  = existsb (fnmatch (Os.basename path)) patterns.
Proof.
  induction 1 as [|q patterns Hq _ IH]; simpl; [done|].
  rewrite Hq, IH. by destruct (fnmatch _ q).
Qed.

(** Every listed file lies below the walked directory and is not ignored. *)
Lemma walk_listed patterns root_dir top :
  forall dirpath p,
    p ∈ SelectFiles.walk fnmatch patterns root_dir dirpath top ->
    exists rel, rel <> [] /\ p = dirpath ++ rel /\
      SelectFiles.is_ignored fnmatch p patterns root_dir = false.
Proof.
  induction top as [name|name entries IH] using node_rect';
    intros dirpath p Hp; simpl in Hp.
  { by apply elem_of_nil in Hp. }
  apply elem_of_app in Hp as [Hp|Hp].
  - apply list_elem_of_In, filter_In in Hp as [Hp Hkeep].
    apply list_elem_of_In, list_elem_of_fmap in Hp as (f & -> & _).
    exists [f]. split; [done|]. split; [done|].
    by apply negb_true_iff in Hkeep.
  - apply list_elem_of_In, in_flat_map in Hp as (d & Hd & Hp).
    apply list_elem_of_In in Hd, Hp.
    destruct (Os.isdir d && negb _); [|by apply elem_of_nil in Hp].
    rewrite Forall_forall in IH.
    destruct (IH d Hd _ _ Hp) as (rel & Hrel & -> & Hkeep).
    exists (Os.name_of d :: rel). split; [done|]. split; [|done].
    unfold Os.join. by rewrite <- app_assoc.
Qed.

End PickerPatterns.

(** ** Pattern matching and traversal of the printer *)

Section PrinterPatterns.

Variable fnmatch : string -> string -> bool.
Variable self : FolderStructureGenerator.t.

Lemma matches_dir_pattern patterns pattern :
  pattern ∈ patterns ->
  Py.endswith_char "/" pattern = true ->
  FolderStructureGenerator.matches_ignore_pattern fnmatch patterns
    (Py.rstrip_char "/" pattern) = true.
Proof.
  intros Hin Hdir.
  induction patterns as [|q patterns IH]; [by apply elem_of_nil in Hin|].
  apply elem_of_cons in Hin as [<-|Hin]; simpl.
  - rewrite Hdir. by rewrite bool_decide_eq_true_2.
  - destruct (Py.endswith_char "/" q).
    + case_bool_decide; [done|]. by apply IH.
    + destruct (fnmatch _ q); [done|]. by apply IH.
Qed.

Lemma matches_globs patterns entry :
  Forall (fun pattern => Py.endswith_char "/" pattern = false) patterns ->
  FolderStructureGenerator.matches_ignore_pattern fnmatch patterns entry
  = existsb (fnmatch entry) patterns.
Proof.
  induction 1 as [|q patterns Hq _ IH]; simpl; [done|].
  rewrite Hq, IH. by destruct (fnmatch entry q).
Qed.

(** What survives the three passes over [os.listdir]. *)
Lemma visible_elem patterns listing e :
  e ∈ FolderStructureGenerator.visible fnmatch self patterns listing <->
  e ∈ listing /\
  FolderStructureGenerator.entry_name e
    <> FolderStructureGenerator.ignore_file self /\
  FolderStructureGenerator.matches_ignore_pattern fnmatch patterns
    (FolderStructureGenerator.entry_name e) = false.
Proof.
  unfold FolderStructureGenerator.visible.
  rewrite !list_elem_of_In, !filter_In, <- !list_elem_of_In.
  rewrite sorted_by_perm, !negb_true_iff, bool_decide_eq_false.
  tauto.
Qed.

(** Every line of the tree stands for a path below the printed directory
    all of whose components are admissible. *)
Lemma recurse_listed patterns dir :
  forall dir_path prefix p text,
    (p, text) ∈ FolderStructureGenerator.recurse fnmatch self patterns dir
                  dir_path prefix ->
    exists rel, rel <> [] /\ p = dir_path ++ rel /\
      Forall (admissible fnmatch self patterns) rel.
Proof.
  induction dir as [name|name children IH] using node_rect';
    intros dir_path prefix p text Hp; simpl in Hp.
  { by apply elem_of_nil in Hp. }
  apply list_elem_of_In, in_concat in Hp as (lines & Hlines & Hp).
  apply list_elem_of_In, elem_of_lookup_imap in Hlines as (i & e & -> & He).
  apply list_elem_of_lookup_2, visible_elem in He as (He & Hname & Hpat).
  apply list_elem_of_In, in_map_iff in He as (c & <- & Hc).
  apply list_elem_of_In in Hc, Hp.
  unfold FolderStructureGenerator.entry_lines in Hp. simpl in *.
  assert (Hfirst : exists rel, rel <> [] /\
            Os.join dir_path (Os.name_of c) = dir_path ++ rel /\
            Forall (admissible fnmatch self patterns) rel).
  { exists [Os.name_of c]. split; [done|]. split; [done|].
    by repeat constructor. }
  destruct (Os.isdir c).
  - apply elem_of_cons in Hp as [Hp|Hp]; [by simplify_eq|].
    rewrite Forall_forall in IH.
    destruct (IH c Hc _ _ _ _ Hp) as (rel & Hrel & -> & Hall).
    exists (Os.name_of c :: rel). split; [done|]. split.
    + unfold Os.join. by rewrite <- app_assoc.
    + by repeat constructor.
  - apply list_elem_of_singleton in Hp. by simplify_eq.
Qed.

End PrinterPatterns.

(** ** Traversal: directory-exact patterns *)

(** C1. When a loaded pattern ends in a separator and, stripped of it,
    names a directory, no path through that directory (the directory
    itself or anything below it) is in the flat file list of the picker
    or in the render tree of the printer, whatever the tree and the other
    patterns are. *)
Theorem ignored_directory_subtree_never_listed
    (fnmatch : string -> string -> bool)
    (read_lines : Os.path -> option (list string))
    (self : FolderStructureGenerator.t)
    (root_dir : Os.path) (name : string) (entries : list Os.node)
    (ignore_files : list Os.path)
    (pattern : string) (before after : list string) :
  Py.endswith_char "/" pattern = true ->
  (pattern ∈ SelectFiles.load_ignore_patterns read_lines ignore_files ->
   (root_dir ++ before ++ Py.rstrip_char "/" pattern :: after)
     ∉ SelectFiles.list_files fnmatch read_lines root_dir entries ignore_files)
  /\
  (pattern ∈ FolderStructureGenerator.load_ignore_patterns read_lines self
               root_dir ->
   (root_dir ++ before ++ Py.rstrip_char "/" pattern :: after)
     ∉ FolderStructureGenerator.render_tree fnmatch read_lines self root_dir
         (Os.Dir name entries)).
Proof.
  intros Hdir. split; intros Hin Hp.
  - apply walk_listed in Hp as (rel & Hrel & Heq & Hkeep).
    apply app_inv_head in Heq. subst rel.
    rewrite (is_ignored_dir_pattern fnmatch _ _ _ pattern) in Hkeep;
      [done..|].
    rewrite relpath_parts_below by done. set_solver.
  - apply list_elem_of_fmap in Hp as ([p text] & Heq & Hp). simpl in Heq.
    apply recurse_listed in Hp as (rel & Hrel & -> & Hall).
    apply app_inv_head in Heq. subst rel.
    rewrite Forall_forall in Hall.
    destruct (Hall (Py.rstrip_char "/" pattern)) as [_ Hno]; [set_solver|].
    by rewrite matches_dir_pattern in Hno.
Qed.

Lemma ignored_directory_subtree_never_listed_witness :
  Py.endswith_char "/" "build/" = true /\
  (["home"; "proj"; "build"; "gen"; "x.py"]
     ∉ SelectFiles.list_files Fnmatch.fnmatchcase sample_read_lines
         sample_root sample_entries
         [Os.join sample_root ".gitignore";
          Os.join sample_root ".selectignore"]) /\
  (["home"; "proj"; "build"; "gen"; "x.py"]
     ∉ FolderStructureGenerator.render_tree Fnmatch.fnmatchcase
         sample_read_lines sample_printer sample_root
         (Os.Dir "proj" sample_entries)).
Proof.
  split; [reflexivity|].
  destruct (ignored_directory_subtree_never_listed Fnmatch.fnmatchcase
              sample_read_lines sample_printer sample_root "proj"
              sample_entries
              [Os.join sample_root ".gitignore";
               Os.join sample_root ".selectignore"]
              "build/" [] ["gen"; "x.py"] eq_refl) as [Hpick Hprint].
  split.
  - apply Hpick. vm_compute. apply list_elem_of_here.
  - apply Hprint. unfold FolderStructureGenerator.load_ignore_patterns.
    apply elem_of_app. right. vm_compute. apply list_elem_of_here.
Defined.

(** ** Matching: glob patterns *)

(** C2. A pattern without a trailing separator is matched against the
    base name alone, by [is_ignored] of the picker and by
    [matches_ignore_pattern] of the printer: with such patterns only, the
    decision is that of [fnmatch] on the base name, so an entry whose
    base name no pattern matches is kept whatever the components above
    it are. *)
Theorem glob_pattern_matches_base_name_only
    (fnmatch : string -> string -> bool) (patterns : list string) :
  Forall (fun pattern => Py.endswith_char "/" pattern = false) patterns ->
  (forall path root_dir,
     SelectFiles.is_ignored fnmatch path patterns root_dir
     = existsb (fnmatch (Os.basename path)) patterns) /\
  (forall entry,
     FolderStructureGenerator.matches_ignore_pattern fnmatch patterns entry
     = existsb (fnmatch entry) patterns) /\
  (forall dir_path name root_dir,
     (forall pattern, pattern ∈ patterns -> fnmatch name pattern = false) ->
     SelectFiles.is_ignored fnmatch (Os.join dir_path name) patterns root_dir
     = false /\
     FolderStructureGenerator.matches_ignore_pattern fnmatch patterns name
     = false).
Proof.
  intros Hglob. split; [|split].
  - intros. by apply is_ignored_globs.
  - intros. by apply matches_globs.
  - intros dir_path name root_dir Hno.
    rewrite is_ignored_globs, matches_globs, basename_join by done.
    enough (existsb (fnmatch name) patterns = false) as -> by done.
    apply not_true_is_false. intros (q & Hq & Hm)%existsb_exists.
    apply list_elem_of_In in Hq. by rewrite Hno in Hm.
Qed.

Lemma glob_pattern_matches_base_name_only_witness :
  Forall (fun pattern => Py.endswith_char "/" pattern = false) ["buil*"] /\
  Fnmatch.fnmatchcase "build" "buil*" = true /\
  SelectFiles.is_ignored Fnmatch.fnmatchcase
    ["home"; "proj"; "build"; "x.py"] ["buil*"] ["home"; "proj"] = false /\
  FolderStructureGenerator.matches_ignore_pattern Fnmatch.fnmatchcase
    ["buil*"] "x.py" = false.
Proof.
  assert (Hglob : Forall (fun pattern => Py.endswith_char "/" pattern = false)
                    ["buil*"]) by (by repeat constructor).
  split; [exact Hglob|]. split; [reflexivity|].
  destruct (glob_pattern_matches_base_name_only Fnmatch.fnmatchcase
              ["buil*"] Hglob) as (Hpick & Hprint & _).
  rewrite Hpick, Hprint. split; reflexivity.
Defined.

(** ** Key assignment *)

Lemma dict_set_fresh {V} (d : Py.dict nat V) (k : nat) (v : V) :
  k ∉ d.*1 -> Py.dict_set d k v = d ++ [(k, v)].
Proof.
  induction d as [|[k' v'] d IH]; simpl; [done|].
  intros Hk. apply not_elem_of_cons in Hk as [Hne Hk].
  case_decide; [congruence|]. by rewrite IH.
Qed.

Lemma dict_get_elem {V} (d : Py.dict nat V) (k : nat) (v : V) :
  NoDup d.*1 -> Py.dict_get d k = Some v <-> (k, v) ∈ d.
Proof.
  induction d as [|[k' v'] d IH]; simpl; intros Hnd.
  { split; [done|]. by intros ?%elem_of_nil. }
  apply NoDup_cons in Hnd as [Hk' Hnd]. rewrite elem_of_cons.
  case_decide as Hk; subst.
  - split; [intros [= ->]; by left|].
    intros [[= ->]|Hin]; [done|].
    exfalso. apply Hk'. apply list_elem_of_fmap. by exists (k, v).
  - rewrite IH by done. split; [by right|]. intros [[= ? ?]|?]; by subst.
Qed.

(** The comprehension gives the keys [0 .. n-1] their characters, in
    order, and raises nothing while [n] stays within the sequence. *)
Lemma keys_of_range_items (key_sequence : list string) (n : nat) :
  n <= length key_sequence ->
  exists d, SelectFiles.keys_of_range key_sequence n = Os.Done d /\
            d.*1 = seq 0 n /\ d.*2 = take n key_sequence.
Proof.
  unfold SelectFiles.keys_of_range.
  induction n as [|n IH]; intros Hn.
  { exists []. by rewrite take_0. }
  destruct IH as (d & Hd & Hfst & Hsnd); [lia|].
  destruct (lookup_lt_is_Some_2 key_sequence n) as [key Hkey]; [lia|].
  exists (d ++ [(n, key)]).
  rewrite seq_S, foldl_app, Hd. simpl. unfold Py.getitem. rewrite Hkey.
  rewrite dict_set_fresh.
  - rewrite !fmap_app, Hfst, Hsnd. simpl. by rewrite (take_S_r _ _ key).
  - rewrite Hfst, elem_of_seq. lia.
Qed.

Lemma items_lookup (key_sequence : list string) (n : nat)
    (d : Py.dict nat string) (idx : nat) (key : string) :
  d.*1 = seq 0 n -> d.*2 = take n key_sequence ->
  Py.dict_get d idx = Some key <->
  idx < n /\ key_sequence !! idx = Some key.
Proof.
  intros Hfst Hsnd.
  rewrite dict_get_elem by (rewrite Hfst; apply NoDup_seq).
  rewrite <- (zip_fst_snd d), Hfst, Hsnd.
  rewrite elem_of_lookup_zip_with. split.
  - intros (i & a & b & [= -> ->] & Ha & Hb).
    apply lookup_seq in Ha as [-> Hi].
    apply lookup_take_Some in Hb as [Hb _]. done.
  - intros [Hidx Hkey]. exists idx, idx, key. split; [done|]. split.
    + by apply lookup_seq.
    + by apply lookup_take_Some.
Qed.

(** What [assign_keys] returns, for any sequence of keys. *)
Lemma assign_keys_items (num_files : nat) (key_sequence : list string) :
  exists mapping,
    SelectFiles.assign_keys num_files key_sequence
    = Os.Done (mapping, bool_decide (length key_sequence < num_files)) /\
    mapping.*1 = seq 0 (num_files `min` length key_sequence) /\
    (forall idx key,
       Py.dict_get mapping idx = Some key <->
       idx < num_files /\ key_sequence !! idx = Some key).
Proof.
  unfold SelectFiles.assign_keys.
  case_decide as Hover.
  - destruct (keys_of_range_items key_sequence (length key_sequence))
      as (d & -> & Hfst & Hsnd); [done|].
    exists d. rewrite bool_decide_eq_true_2 by done.
    split; [done|]. split; [by rewrite Nat.min_r by lia|].
    intros idx key.
    rewrite (items_lookup key_sequence (length key_sequence) d) by done.
    split; [intros [? ?]; split; [lia|done]|].
    intros [_ Hkey]. split; [|done]. by eapply lookup_lt_Some.
  - destruct (keys_of_range_items key_sequence num_files)
      as (d & -> & Hfst & Hsnd); [lia|].
    exists d. rewrite bool_decide_eq_false_2 by done.
    split; [done|]. split; [by rewrite Nat.min_l by lia|].
    intros idx key. by rewrite (items_lookup key_sequence num_files d).
Qed.

(** C3. Over a sequence of distinct keys (the fixed alphabet is one):
    [assign_keys] returns, it reports an overflow exactly when there are
    more files than keys, and index [i] is given [key_sequence[i]]. With
    as many files as keys the table is a bijection between the indices
    [0 .. length-1] and the keys, with no overflow; with one file more it
    still covers exactly the indices [0 .. length-1], with an overflow. *)
Theorem assign_keys_bijection_and_overflow
    (num_files : nat) (key_sequence : list string) :
  NoDup key_sequence ->
  exists mapping overflow,
    SelectFiles.assign_keys num_files key_sequence
    = Os.Done (mapping, overflow) /\
    (overflow = true <-> length key_sequence < num_files) /\
    (forall idx key,
       Py.dict_get mapping idx = Some key <->
       idx < num_files /\ key_sequence !! idx = Some key) /\
    (num_files = length key_sequence ->
       overflow = false /\
       mapping.*1 = seq 0 (length key_sequence) /\
       (forall idx, idx < length key_sequence ->
                    is_Some (Py.dict_get mapping idx)) /\
       (forall i j key,
          Py.dict_get mapping i = Some key ->
          Py.dict_get mapping j = Some key -> i = j) /\
       (forall key, key ∈ key_sequence ->
                    exists idx, idx < length key_sequence /\
                                Py.dict_get mapping idx = Some key)) /\
    (num_files = S (length key_sequence) ->
       overflow = true /\
       mapping.*1 = seq 0 (length key_sequence) /\
       length mapping = length key_sequence /\
       (forall idx, is_Some (Py.dict_get mapping idx) <->
                    idx < length key_sequence)).
Proof.
  intros Hnd.
  destruct (assign_keys_items num_files key_sequence)
    as (mapping & Heq & Hfst & Hget).
  exists mapping, (bool_decide (length key_sequence < num_files)).
  split; [done|]. split; [apply bool_decide_eq_true|]. split; [done|]. split.
  - intros ->. rewrite Nat.min_id in Hfst.
    split; [apply bool_decide_eq_false; lia|]. split; [done|].
    split; [|split].
    + intros idx Hidx.
      destruct (lookup_lt_is_Some_2 key_sequence idx Hidx) as [key Hkey].
      exists key. by apply Hget.
    + intros i j key [_ Hi]%Hget [_ Hj]%Hget.
      by eapply NoDup_lookup.
    + intros key [idx Hidx]%list_elem_of_lookup_1. exists idx.
      pose proof (lookup_lt_Some _ _ _ Hidx). split; [done|]. by apply Hget.
  - intros ->. rewrite Nat.min_r in Hfst by lia.
    split; [apply bool_decide_eq_true; lia|]. split; [done|]. split.
    + by rewrite <- (length_fmap fst), Hfst, length_seq.
    + intros idx. split.
      * intros [key [_ Hkey]%Hget]. by eapply lookup_lt_Some.
      * intros Hidx.
        destruct (lookup_lt_is_Some_2 key_sequence idx Hidx) as [key Hkey].
        exists key. apply Hget. split; [lia|done].
Qed.

Lemma key_sequence_distinct : NoDup SelectFiles.key_sequence.
Proof. apply (bool_decide_unpack _). by vm_compute. Defined.

Lemma assign_keys_bijection_and_overflow_witness :
  NoDup SelectFiles.key_sequence /\
  exists mapping overflow,
    SelectFiles.assign_keys 60 SelectFiles.key_sequence
    = Os.Done (mapping, overflow) /\
    overflow = false /\
    mapping.*1 = seq 0 60.
Proof.
  split; [exact key_sequence_distinct|].
  destruct (assign_keys_bijection_and_overflow 60 SelectFiles.key_sequence
              key_sequence_distinct)
    as (mapping & overflow & Heq & _ & _ & Hfull & _).
  exists mapping, overflow. split; [exact Heq|].
  destruct (Hfull eq_refl) as (Hover & Hfst & _). split; [exact Hover|].
  exact Hfst.
Defined.

(** C9, the claim as stated fails: the alphabet has 60 symbols, so a list
    of 62 files overflows and its last two files get no key. *)
Lemma key_sequence_overflows_at_62 :
  length SelectFiles.key_sequence = 60 /\
  exists mapping,
    SelectFiles.assign_keys 62 SelectFiles.key_sequence
    = Os.Done (mapping, true) /\
    Py.dict_get mapping 60 = None /\
    Py.dict_get mapping 61 = None.
Proof.
  split; [reflexivity|].
  eexists. split; [vm_compute; reflexivity|]. split; reflexivity.
Qed.

(** C9, amended. The alphabet of the picker has exactly 60 distinct
    symbols (the letters a to t in both cases, the digits and ten shifted
    symbols): a list of at most 60 files gets a key for every file and no
    overflow, a longer one overflows. *)
Theorem key_sequence_has_sixty_keys :
  length SelectFiles.key_sequence = 60 /\
  NoDup SelectFiles.key_sequence /\
  forall num_files,
    exists mapping,
      SelectFiles.assign_keys num_files SelectFiles.key_sequence
      = Os.Done (mapping, bool_decide (60 < num_files)) /\
      (forall idx, idx < num_files `min` 60 ->
                   Py.dict_get mapping idx = SelectFiles.key_sequence !! idx /\
                   is_Some (Py.dict_get mapping idx)) /\
      (forall idx, num_files `min` 60 <= idx ->
                   Py.dict_get mapping idx = None).
Proof.
  split; [reflexivity|]. split; [exact key_sequence_distinct|].
  intros num_files.
  destruct (assign_keys_items num_files SelectFiles.key_sequence)
    as (mapping & Heq & Hfst & Hget).
  change (length SelectFiles.key_sequence) with 60 in *.
  exists mapping. split; [done|]. split.
  - intros idx Hidx.
    destruct (lookup_lt_is_Some_2 SelectFiles.key_sequence idx)
      as [key Hkey]; [change (length SelectFiles.key_sequence) with 60; lia|].
    assert (Py.dict_get mapping idx = Some key) as ->
      by (apply Hget; split; [lia|done]).
    by rewrite Hkey.
  - intros idx Hidx.
    destruct (Py.dict_get mapping idx) as [key|] eqn:Hkey; [|done].
    apply Hget in Hkey as [? Hkey]. apply lookup_lt_Some in Hkey.
    change (length SelectFiles.key_sequence) with 60 in Hkey. lia.
Qed.

(** ** The selection loop *)

Lemma toggle_off_on (selected : gset nat) (idx : nat) :
  idx ∈ selected -> selected ∖ {[idx]} ∪ {[idx]} = selected.
Proof.
  intros Hin. apply set_eq. intros x.
  destruct (decide (x = idx)); set_solver.
Qed.

Lemma toggle_on_off (selected : gset nat) (idx : nat) :
  idx ∉ selected -> (selected ∪ {[idx]}) ∖ {[idx]} = selected.
Proof. set_solver. Qed.

(** Toggling by a key of the table, twice. *)
Lemma handle_key_twice (key_to_index : gmap string nat)
    (selected : gset nat) (key : string) (idx : nat) :
  key <> Py.LF ->
  key_to_index !! key = Some idx ->
  exists toggled,
    SelectFiles.handle_key key_to_index selected key
    = SelectFiles.Browsing toggled /\
    (idx ∈ toggled <-> idx ∉ selected) /\
    SelectFiles.handle_key key_to_index toggled key
    = SelectFiles.Browsing selected.
Proof.
  intros Hkey Hidx. unfold SelectFiles.handle_key.
  rewrite !decide_False, Hidx by done.
  destruct (decide (idx ∈ selected)) as [Hin|Hin].
  - exists (selected ∖ {[idx]}). split; [done|]. split; [set_solver|].
    rewrite decide_False by done.
    rewrite decide_False by set_solver. by rewrite toggle_off_on.
  - exists (selected ∪ {[idx]}). split; [done|]. split; [set_solver|].
    rewrite decide_False by done.
    rewrite decide_True by set_solver. by rewrite toggle_on_off.
Qed.

Lemma handle_key_unknown (key_to_index : gmap string nat)
    (selected : gset nat) (key : string) :
  key <> Py.LF ->
  key_to_index !! key = None ->
  SelectFiles.handle_key key_to_index selected key
  = SelectFiles.Browsing selected.
Proof.
  intros Hkey Hidx. unfold SelectFiles.handle_key.
  by rewrite decide_False, Hidx.
Qed.

(** Keys that leave the selection as it was can be dropped from the
    input, wherever in the session they are pressed. *)
Lemma session_loop_skip (key_to_index : gmap string nat)
    (ignored : list string) (before after : list string) :
  (forall selected,
     SelectFiles.session_loop key_to_index selected (ignored ++ after)
     = SelectFiles.session_loop key_to_index selected after) ->
  forall selected,
    SelectFiles.session_loop key_to_index selected
      (before ++ ignored ++ after)
    = SelectFiles.session_loop key_to_index selected (before ++ after).
Proof.
  intros Hskip. induction before as [|k before IH]; intros selected; simpl.
  - apply Hskip.
  - destruct (SelectFiles.handle_key _ _ _); [apply IH|done].
Qed.

Lemma session_loop_toggle_twice (key_to_index : gmap string nat)
    (key : string) (idx : nat) (before after : list string)
    (selected : gset nat) :
  key <> Py.LF ->
  key_to_index !! key = Some idx ->
  SelectFiles.session_loop key_to_index selected
    (before ++ [key; key] ++ after)
  = SelectFiles.session_loop key_to_index selected (before ++ after).
Proof.
  intros Hkey Hidx. apply session_loop_skip. intros s. simpl.
  destruct (handle_key_twice key_to_index s key idx Hkey Hidx)
    as (toggled & -> & _ & ->). done.
Qed.

Lemma session_loop_unknown (key_to_index : gmap string nat)
    (key : string) (before after : list string) (selected : gset nat) :
  key <> Py.LF ->
  key_to_index !! key = None ->
  SelectFiles.session_loop key_to_index selected (before ++ [key] ++ after)
  = SelectFiles.session_loop key_to_index selected (before ++ after).
Proof.
  intros Hkey Hidx. apply session_loop_skip. intros s. simpl.
  by rewrite handle_key_unknown.
Qed.

(** C4. A key other than Enter that the inverse table knows toggles one
    index, and pressed twice it gives back the selection it started
    from; a key the table does not know leaves the selection as it is.
    Both hold of a single turn of the loop in any state, and of the whole
    session wherever the keys are pressed. *)
Theorem toggle_twice_restores_and_unknown_key_ignored
    (files : list Os.path) (key_mapping : Py.dict nat string)
    (root_dir : Os.path) (selected : gset nat) (key : string) :
  key <> Py.LF ->
  let key_to_index := SelectFiles.get_key_mapping key_mapping in
  (forall idx,
     key_to_index !! key = Some idx ->
     (exists toggled,
        SelectFiles.handle_key key_to_index selected key
        = SelectFiles.Browsing toggled /\
        (idx ∈ toggled <-> idx ∉ selected) /\
        SelectFiles.handle_key key_to_index toggled key
        = SelectFiles.Browsing selected) /\
     (forall before after,
        SelectFiles.interactive_file_selection files key_mapping root_dir
          (before ++ [key; key] ++ after)
        = SelectFiles.interactive_file_selection files key_mapping root_dir
            (before ++ after))) /\
  (key_to_index !! key = None ->
     SelectFiles.handle_key key_to_index selected key
     = SelectFiles.Browsing selected /\
     (forall before after,
        SelectFiles.interactive_file_selection files key_mapping root_dir
          (before ++ [key] ++ after)
        = SelectFiles.interactive_file_selection files key_mapping root_dir
            (before ++ after))).
Proof.
  intros Hkey key_to_index. split.
  - intros idx Hidx. split; [by apply handle_key_twice|].
    intros before after. by eapply session_loop_toggle_twice.
  - intros Hidx. split; [by apply handle_key_unknown|].
    intros before after. by apply session_loop_unknown.
Qed.

Lemma toggle_twice_restores_and_unknown_key_ignored_witness :
  "a" <> Py.LF /\
  SelectFiles.handle_key
    (SelectFiles.get_key_mapping [(0, "a"); (1, "A")]) {[1]} "?"
  = SelectFiles.Browsing {[1]} /\
  SelectFiles.interactive_file_selection [] [(0, "a"); (1, "A")] []
    (["A"] ++ ["a"; "a"] ++ [Py.LF])
  = SelectFiles.interactive_file_selection [] [(0, "a"); (1, "A")] []
      (["A"] ++ [Py.LF]).
Proof.
  split; [discriminate|].
  split.
  - assert (Hq : "?" <> Py.LF) by discriminate.
    destruct (toggle_twice_restores_and_unknown_key_ignored
                [] [(0, "a"); (1, "A")] [] {[1]} "?" Hq) as [_ Hunknown].
    apply Hunknown. reflexivity.
  - assert (Ha : "a" <> Py.LF) by discriminate.
    destruct (toggle_twice_restores_and_unknown_key_ignored
                [] [(0, "a"); (1, "A")] [] ∅ "a" Ha) as [Hknown _].
    destruct (Hknown 0) as [_ Hsession]; [reflexivity|].
    apply Hsession.
Defined.

(** ** Concatenation *)

Lemma append_cons (x : ascii) (a b : string) :
  String x a +:+ b = String x (a +:+ b).
Proof. reflexivity. Qed.

Lemma append_assoc (a b c : string) : (a +:+ b) +:+ c = a +:+ b +:+ c.
Proof.
  induction a as [|x a IH]; [done|]. by rewrite !append_cons, IH.
Qed.

Lemma append_nil_r (a : string) : a +:+ "" = a.
Proof. induction a as [|x a IH]; [done|]. by rewrite append_cons, IH. Qed.




Section Concatenation.

Variable exists_ : Os.path -> bool.
Variable open_read_locale : Os.path -> SelectFiles.read_result.
Variable open_read : Os.path -> SelectFiles.read_result.
Variable open_write : Os.path -> option Os.read_error.
Variable outfile_write : string -> string -> option Os.read_error.
Variable outfile_close : option Os.read_error.
Variable order : Py.set_order.
Variable files : list Os.path.

(** One turn of the loop on the index of a file. *)
Lemma append_selected_at st idx file_path :
  files !! idx = Some file_path ->
  SelectFiles.append_selected open_read outfile_write files st idx
  = Os.Done
      match open_read file_path with
      | SelectFiles.Content content =>
          let block := SelectFiles.file_block file_path content in
          match outfile_write (SelectFiles.outfile st) block with
          | None =>
              SelectFiles.written (SelectFiles.add_content st block) block
          | Some e =>
              SelectFiles.print (SelectFiles.add_content st block)
                (SelectFiles.read_warning file_path e)
          end
      | SelectFiles.Failed e =>
          SelectFiles.print st (SelectFiles.read_warning file_path e)
      end.
Proof.
  intros Hpath. unfold SelectFiles.append_selected, Py.getitem.
  rewrite Hpath. destruct (open_read file_path); [|done].
  simpl. by destruct (outfile_write _ _).
Qed.

Lemma append_selected_out_of_range st idx :
  files !! idx = None ->
  SelectFiles.append_selected open_read outfile_write files st idx
  = Os.Raise Os.IndexError.
Proof.
  intros Hpath. unfold SelectFiles.append_selected, Py.getitem.
  by rewrite Hpath.
Qed.

Lemma for_each_cons {A S} (body : S -> A -> Os.outcome S) st x l :
  SelectFiles.for_each body st (x :: l)
  = body st x ≫= fun st' => SelectFiles.for_each body st' l.
Proof. reflexivity. Qed.

(** A set is enumerated member by member. *)
Lemma elem_of_iter (selected : gset nat) (idx : nat) :
  idx ∈ Py.iter order selected <-> idx ∈ selected.
Proof. by rewrite (Py.iter_elements order selected), elem_of_elements. Qed.


(** An index that is not the index of a file stops the loop. *)
Lemma for_each_append_out_of_range (indices : list nat) :
  Exists (fun idx => length files <= idx) indices ->
  forall st,
    SelectFiles.for_each
      (SelectFiles.append_selected open_read outfile_write files)
      st indices = Os.Raise Os.IndexError.
Proof.
  induction indices as [|idx indices IH]; intros Hex st.
  { by apply Exists_nil in Hex. }
  rewrite for_each_cons.
  destruct (files !! idx) as [file_path|] eqn:Hpath.
  - rewrite (append_selected_at st idx file_path Hpath).
    apply IH. apply Exists_cons in Hex as [Hout|Hex]; [|done].
    apply lookup_lt_Some in Hpath. lia.
  - by rewrite append_selected_out_of_range.
Qed.

(** The loop raises nothing but [IndexError]. *)
Lemma for_each_append_raise (indices : list nat) :
  forall st exn,
    SelectFiles.for_each
      (SelectFiles.append_selected open_read outfile_write files)
      st indices = Os.Raise exn ->
    exn = Os.IndexError /\ exists idx, idx ∈ indices /\ length files <= idx.
Proof.
  induction indices as [|idx indices IH]; intros st exn Hrun; [done|].
  rewrite for_each_cons in Hrun.
  destruct (files !! idx) as [file_path|] eqn:Hpath.
  - rewrite (append_selected_at st idx file_path Hpath) in Hrun.
    apply IH in Hrun as [-> (i & Hi & Hlen)].
    split; [done|]. exists i. split; [by right|done].
  - rewrite append_selected_out_of_range in Hrun by done.
    injection Hrun as <-. split; [done|]. exists idx. split; [by left|].
    by apply lookup_ge_None.
Qed.

(** The accumulated text gets the block of every file that was read,
    whatever the writes did; the clipboard is left alone. *)
Lemma for_each_append_content (indices : list nat) :
  forall st st',
    SelectFiles.for_each
      (SelectFiles.append_selected open_read outfile_write files)
      st indices = Os.Done st' ->
    SelectFiles.output_content st'
    = SelectFiles.output_content st +:+ blocks_of open_read files indices /\
    SelectFiles.clipboard st' = SelectFiles.clipboard st.
Proof.
  induction indices as [|idx indices IH]; intros st st' Hrun.
  { injection Hrun as <-. by rewrite append_nil_r. }
  rewrite for_each_cons in Hrun.
  destruct (files !! idx) as [file_path|] eqn:Hpath;
    [|by rewrite append_selected_out_of_range in Hrun].
  rewrite (append_selected_at st idx file_path Hpath) in Hrun.
  apply IH in Hrun as [-> ->]. simpl. rewrite Hpath.
  destruct (open_read file_path) as [content|e]; [|done].
  cbn zeta. destruct (outfile_write _ _); simpl; by rewrite append_assoc.
Qed.






(** How the part about [tree.txt] ends on the empty state. *)
Lemma include_tree_cases (root_dir : Os.path) :
  match SelectFiles.include_tree exists_ open_read_locale outfile_write
          (SelectFiles.State "" "" [] None) (Os.join root_dir "tree.txt") with
  | Os.Done st =>
      tree_included exists_ open_read_locale outfile_write root_dir /\
      SelectFiles.outfile st = SelectFiles.output_content st /\
      SelectFiles.clipboard st = None
  | Os.Raise exn =>
      exists e,
        exn = Os.FileError e /\
        tree_raises exists_ open_read_locale outfile_write root_dir e
  end.
Proof.
  unfold SelectFiles.include_tree, tree_included, tree_raises.
  destruct (exists_ (Os.join root_dir "tree.txt")); [|done].
  destruct (open_read_locale (Os.join root_dir "tree.txt"))
    as [tree_content|e] eqn:Hread.
  - cbn zeta. simpl SelectFiles.outfile.
    destruct (outfile_write "" _) as [e|] eqn:Hwrite.
    + exists e. split; [done|]. split; [done|]. right. by eexists.
    + split; [|done]. intros _. by eexists.
  - exists e. split; [done|]. split; [done|]. by left.
Qed.

Lemma tree_raises_not_included (root_dir : Os.path) (e : Os.read_error) :
  tree_raises exists_ open_read_locale outfile_write root_dir e ->
  tree_included exists_ open_read_locale outfile_write root_dir ->
  False.
Proof.
  intros [Hex Hcases] Htree. destruct (Htree Hex) as (c & Hread & Hwrite).
  destruct Hcases as [?|(c' & Hread' & Hwrite')]; congruence.
Qed.

(** How the filling of the output file ends. *)
Lemma fill_output_file_cases (selected : gset nat) (root_dir : Os.path) :
  match SelectFiles.fill_output_file exists_ open_read_locale open_read
          open_write outfile_write outfile_close order
          (SelectFiles.State "" "" [] None)
          (Os.join root_dir "concatenated_output.txt")
          selected files root_dir with
  | Os.Done st =>
      open_write (Os.join root_dir "concatenated_output.txt") = None /\
      outfile_close = None /\
      tree_included exists_ open_read_locale outfile_write root_dir /\
      (forall idx, idx ∈ selected -> idx < length files) /\
      SelectFiles.clipboard st = None
  | Os.Raise exn =>
      (exists e,
         exn = Os.FileError e /\
         (open_write (Os.join root_dir "concatenated_output.txt") = Some e \/
          (open_write (Os.join root_dir "concatenated_output.txt") = None /\
           outfile_close = Some e) \/
          (open_write (Os.join root_dir "concatenated_output.txt") = None /\
           outfile_close = None /\
           tree_raises exists_ open_read_locale outfile_write root_dir e))) \/
      (exn = Os.IndexError /\
       open_write (Os.join root_dir "concatenated_output.txt") = None /\
       outfile_close = None /\
       tree_included exists_ open_read_locale outfile_write root_dir /\
       exists idx, idx ∈ selected /\ length files <= idx)
  end.
Proof.
  unfold SelectFiles.fill_output_file.
  destruct (open_write _) as [e|]; [left; exists e; by split; [|left]|].
  destruct outfile_close as [e|];
    [left; exists e; split; [done|]; right; by left|].
  pose proof (include_tree_cases root_dir) as Htree.
  destruct (SelectFiles.include_tree _ _ _ _ _) as [st|exn].
  - destruct Htree as (Htree & _ & Hclip). simpl.
    destruct (SelectFiles.for_each _ st _) as [st'|exn] eqn:Hrun.
    + split; [done|]. split; [done|]. split; [done|]. split.
      * intros idx Hidx%elem_of_iter.
        destruct (decide (idx < length files)) as [|Hge]; [done|].
        rewrite for_each_append_out_of_range in Hrun; [done|].
        apply Exists_exists. exists idx. split; [done|lia].
      * apply for_each_append_content in Hrun as [_ ->]. done.
    + right. apply for_each_append_raise in Hrun as [-> (idx & Hidx & Hlen)].
      do 4 (split; [done|]). exists idx. by rewrite <- elem_of_iter.
  - destruct Htree as (e & -> & Htree). simpl. left. exists e.
    split; [done|]. right. right. done.
Qed.


End Concatenation.





(** ** From the keys to the files *)

(** A key of the inverse table comes from an item of the table. *)
Lemma get_key_mapping_lookup (keys : Py.dict nat string) key idx :
  SelectFiles.get_key_mapping keys !! key = Some idx -> (idx, key) ∈ keys.
Proof.
  unfold SelectFiles.get_key_mapping.
  enough (forall acc : gmap string nat,
            foldl (fun acc item => <[item.2 := item.1]> acc) acc keys !! key
            = Some idx ->
            acc !! key = Some idx \/ (idx, key) ∈ keys) as Hgen.
  { intros H. by destruct (Hgen ∅ H) as [?|?]. }
  induction keys as [|[i k] keys IH]; intros acc Hacc; simpl in *.
  { by left. }
  destruct (IH _ Hacc) as [Hhere|Hlater].
  - destruct (decide (k = key)) as [->|Hne].
    + rewrite lookup_insert_eq in Hhere. simplify_eq. right. left.
    + rewrite lookup_insert_ne in Hhere by done. by left.
  - right. by right.
Qed.

(** The session selects only indices it started with or indices of the
    inverse table. *)
Lemma session_loop_selected (key_to_index : gmap string nat) keys :
  forall selected result,
    SelectFiles.session_loop key_to_index selected keys = Some result ->
    forall idx, idx ∈ result ->
      idx ∈ selected \/ exists key, key_to_index !! key = Some idx.
Proof.
  induction keys as [|key keys IH]; intros selected result Hrun idx Hidx;
    simpl in Hrun; [done|].
  unfold SelectFiles.handle_key in Hrun.
  destruct (decide (key = Py.LF)).
  { simplify_eq. by left. }
  destruct (key_to_index !! key) as [i|] eqn:Hkey; [|by eapply IH].
  destruct (decide (i ∈ selected));
    (destruct (IH _ _ Hrun idx Hidx) as [Hin|?]; [|by right]).
  - left. set_solver.
  - apply elem_of_union in Hin as [?|Hin]; [by left|].
    apply elem_of_singleton in Hin as ->. right. by exists key.
Qed.

Lemma concatenate_no_index_error
    (exists_ : Os.path -> bool)
    (open_read_locale open_read : Os.path -> SelectFiles.read_result)
    (open_write : Os.path -> option Os.read_error)
    (outfile_write : string -> string -> option Os.read_error)
    (outfile_close : option Os.read_error)
    (clipboard_works : bool) (order : Py.set_order)
    (selected : gset nat) (files : list Os.path) (root_dir : Os.path) :
  (forall idx, idx ∈ selected -> idx < length files) ->
  SelectFiles.concatenate_selected_files exists_ open_read_locale open_read
    open_write outfile_write outfile_close clipboard_works order
    selected files root_dir <> Os.Raise Os.IndexError.
Proof.
  intros Hrange. unfold SelectFiles.concatenate_selected_files.
  pose proof (fill_output_file_cases exists_ open_read_locale open_read
                open_write outfile_write outfile_close order files
                selected root_dir) as Hcases.
  destruct (SelectFiles.fill_output_file _ _ _ _ _ _ _ _ _ _ _ _)
    as [st|exn]; [done|]. simpl.
  destruct Hcases as [(e & -> & _)|(_ & _ & _ & _ & idx & Hidx & Hlen)];
    [done|].
  apply Hrange in Hidx. lia.
Qed.

(** The indices a session selects are keys of the table it was given. *)
Lemma session_selects_assigned_indices
    (files : list Os.path) (root_dir : Os.path)
    (key_sequence keys : list string)
    (key_mapping : Py.dict nat string) (overflow : bool)
    (selected : gset nat) :
  SelectFiles.assign_keys (length files) key_sequence
  = Os.Done (key_mapping, overflow) ->
  SelectFiles.interactive_file_selection files key_mapping root_dir keys
  = Some selected ->
  forall idx, idx ∈ selected ->
    is_Some (Py.dict_get key_mapping idx) /\
    idx < length files `min` length key_sequence /\
    is_Some (Py.getitem files idx).
Proof.
  intros Hassign Hrun idx Hidx.
  destruct (assign_keys_items (length files) key_sequence)
    as (mapping & Heq & Hfst & Hget).
  rewrite Hassign in Heq. injection Heq as <- _.
  assert (exists key, Py.dict_get key_mapping idx = Some key) as [key Hkey].
  { destruct (session_loop_selected _ _ _ _ Hrun idx Hidx) as [Hin|[key Hkey]].
    { by apply elem_of_empty in Hin. }
    exists key. apply dict_get_elem.
    - rewrite Hfst. apply NoDup_seq.
    - by apply get_key_mapping_lookup. }
  split; [by exists key|].
  apply Hget in Hkey as [Hlt Hkey]. apply lookup_lt_Some in Hkey.
  split; [lia|]. by apply lookup_lt_is_Some_2.
Qed.

(** C10. Whatever keys are pressed, every index of the selection that the
    session returns is a key of the table that [assign_keys] built for
    the file list: it is below both the number of files and the number
    of keys, so [files[idx]] finds a file, and the concatenation raises
    no [IndexError]. *)
Theorem selected_indices_are_file_indices
    (exists_ : Os.path -> bool)
    (open_read_locale open_read : Os.path -> SelectFiles.read_result)
    (open_write : Os.path -> option Os.read_error)
    (outfile_write : string -> string -> option Os.read_error)
    (outfile_close : option Os.read_error)
    (clipboard_works : bool) (order : Py.set_order)
    (files : list Os.path) (root_dir : Os.path)
    (key_sequence keys : list string)
    (key_mapping : Py.dict nat string) (overflow : bool)
    (selected : gset nat) :
  SelectFiles.assign_keys (length files) key_sequence
  = Os.Done (key_mapping, overflow) ->
  SelectFiles.interactive_file_selection files key_mapping root_dir keys
  = Some selected ->
  (forall idx, idx ∈ selected ->
     is_Some (Py.dict_get key_mapping idx) /\
     idx < length files `min` length key_sequence /\
     is_Some (Py.getitem files idx)) /\
  SelectFiles.concatenate_selected_files exists_ open_read_locale open_read
    open_write outfile_write outfile_close clipboard_works order
    selected files root_dir <> Os.Raise Os.IndexError.
Proof.
  intros Hassign Hrun.
  pose proof (session_selects_assigned_indices _ _ _ _ _ _ _ Hassign Hrun)
    as Hsel.
  split; [done|]. apply concatenate_no_index_error.
  intros idx Hidx. destruct (Hsel idx Hidx) as (_ & Hlt & _). lia.
Qed.

Lemma selected_indices_are_file_indices_witness :
  exists selected,
    SelectFiles.assign_keys (length sample_files) SelectFiles.key_sequence
    = Os.Done ([(0, "a"); (1, "A"); (2, "b")], false) /\
    SelectFiles.interactive_file_selection sample_files
      [(0, "a"); (1, "A"); (2, "b")] ["tmp"] ["b"; "B"; "a"; "b"; Py.LF]
    = Some selected /\
    (forall idx, idx ∈ selected -> is_Some (Py.getitem sample_files idx)) /\
    SelectFiles.concatenate_selected_files (fun _ => false) sample_open_read
      sample_open_read sample_open_write sample_outfile_write None true
      ascending_order selected sample_files ["tmp"]
    <> Os.Raise Os.IndexError.
Proof.
  exists {[0]}.
  assert (Hassign :
            SelectFiles.assign_keys (length sample_files)
              SelectFiles.key_sequence
            = Os.Done ([(0, "a"); (1, "A"); (2, "b")], false))
    by reflexivity.
  assert (Hrun :
            SelectFiles.interactive_file_selection sample_files
              [(0, "a"); (1, "A"); (2, "b")] ["tmp"]
              ["b"; "B"; "a"; "b"; Py.LF]
            = Some {[0]})
    by (by vm_compute).
  split; [exact Hassign|]. split; [exact Hrun|].
  destruct (selected_indices_are_file_indices (fun _ => false)
              sample_open_read sample_open_read sample_open_write
              sample_outfile_write None true ascending_order
              sample_files ["tmp"]
              SelectFiles.key_sequence ["b"; "B"; "a"; "b"; Py.LF]
              [(0, "a"); (1, "A"); (2, "b")] false {[0]} Hassign Hrun)
    as [Hsel Hraise].
  split; [|exact Hraise].
  intros idx Hidx. by destruct (Hsel idx Hidx) as (_ & _ & Hfile).
Defined.

(** The loop that prints the selected files finds a file at every
    index. *)
Lemma print_selected_done (files : list Os.path) (indices : list nat) :
  Forall (fun idx => is_Some (Py.getitem files idx)) indices ->
  SelectFiles.for_each
    (fun (_ : unit) idx =>
       match Py.getitem files idx with
       | Some _ => Os.Done ()
       | None => Os.Raise Os.IndexError
       end) () indices = Os.Done ().
Proof.
  induction 1 as [|idx indices [file_path Hidx] _ IH]; [done|].
  rewrite for_each_cons, Hidx. apply IH.
Qed.

(** The picker as a whole never ends on an [IndexError]. *)
Lemma main_no_index_error
    (fnmatch : string -> string -> bool)
    (read_lines : Os.path -> option (list string))
    (exists_ : Os.path -> bool)
    (open_read_locale open_read : Os.path -> SelectFiles.read_result)
    (open_write : Os.path -> option Os.read_error)
    (outfile_write : string -> string -> option Os.read_error)
    (outfile_close : option Os.read_error)
    (clipboard_works : bool) (order : Py.set_order)
    (read_raises : Os.path -> option Os.read_error)
    (root_dir : Os.path) (root : option (list Os.node))
    (keys : list string) :
  SelectFiles.main fnmatch read_lines exists_ open_read_locale open_read
    open_write outfile_write outfile_close clipboard_works order
    read_raises root_dir root keys <> Os.Raise Os.IndexError.
Proof.
  unfold SelectFiles.main. destruct root as [entries|]; [|done].
  destruct (SelectFiles.load_ignore_patterns_raises _ _ _); [done|].
  set (files := SelectFiles.list_files _ _ _ _ _).
  destruct files as [|file files'] eqn:Hfiles; [done|].
  rewrite <- Hfiles. clear Hfiles.
  destruct (assign_keys_items (length files) SelectFiles.key_sequence)
    as (mapping & Heq & _).
  rewrite Heq. simpl.
  destruct (SelectFiles.interactive_file_selection _ _ _ _)
    as [selected|] eqn:Hrun; [|done].
  pose proof (session_selects_assigned_indices _ _ _ _ _ _ _ Heq Hrun)
    as Hsel.
  assert (Hraise :
            SelectFiles.concatenate_selected_files exists_ open_read_locale
              open_read open_write outfile_write outfile_close
              clipboard_works order selected files root_dir
            <> Os.Raise Os.IndexError).
  { apply concatenate_no_index_error.
    intros idx Hidx. destruct (Hsel idx Hidx) as (_ & Hlt & _). lia. }
  rewrite print_selected_done; simpl.
  2:{ apply Forall_forall. intros idx Hidx%elem_of_iter.
      by destruct (Hsel idx Hidx) as (_ & _ & ?). }
  destruct (SelectFiles.concatenate_selected_files _ _ _ _ _ _ _ _ _ _ _);
    [done|].
  simpl. congruence.
Qed.

(** ** Loading the ignore patterns *)

Lemma picker_file_loop (lines : list string) :
  forall patterns,
    foldl (fun patterns line =>
             let line := Py.strip line in
             if Py.truthy line && negb (Py.startswith_char "#" line)
             then patterns ++ [line]
             else patterns)
          patterns lines
    = patterns ++ surviving_lines lines.
Proof.
  unfold surviving_lines.
  induction lines as [|line lines IH]; intros patterns; simpl.
  { by rewrite app_nil_r. }
  rewrite IH. destruct (Py.truthy _ && negb _); [|done].
  by rewrite <- app_assoc.
Qed.

(** The picker loads the surviving lines of the ignore files that exist,
    file after file, and nothing else. *)
Lemma picker_load_ignore_patterns_spec
    (read_lines : Os.path -> option (list string))
    (ignore_files : list Os.path) :
  SelectFiles.load_ignore_patterns read_lines ignore_files
  = flat_map (fun ignore_file =>
                match read_lines ignore_file with
                | Some lines => surviving_lines lines
                | None => []
                end) ignore_files.
Proof.
  unfold SelectFiles.load_ignore_patterns.
  enough (forall patterns,
            foldl (fun patterns ignore_file =>
                     match read_lines ignore_file with
                     | Some f =>
                         foldl (fun patterns line =>
                                  let line := Py.strip line in
                                  if Py.truthy line
                                     && negb (Py.startswith_char "#" line)
                                  then patterns ++ [line]
                                  else patterns) patterns f
                     | None => patterns
                     end) patterns ignore_files
            = patterns ++
              flat_map (fun ignore_file =>
                          match read_lines ignore_file with
                          | Some lines => surviving_lines lines
                          | None => []
                          end) ignore_files) as Hgen by apply Hgen.
  induction ignore_files as [|f ignore_files IH]; intros patterns; simpl.
  { by rewrite app_nil_r. }
  rewrite IH. destruct (read_lines f) as [lines|]; [|done].
  by rewrite picker_file_loop, <- app_assoc.
Qed.

(** C6, the claim as stated fails for the picker: with no ignore file on
    disk it loads no pattern at all, so a default of the printer such as
    [.git] is not in its pattern set and the content of that directory
    is listed. *)
Lemma picker_loads_no_default_patterns :
  ".git" ∈ FolderStructureGenerator.DEFAULT_IGNORE_PATTERNS /\
  SelectFiles.load_ignore_patterns (fun _ => None)
    [["home"; "proj"; ".gitignore"]; ["home"; "proj"; ".selectignore"]]
  = [] /\
  SelectFiles.list_files Fnmatch.fnmatchcase (fun _ => None)
    ["home"; "proj"] [Os.Dir ".git" [Os.File "config"]]
    [["home"; "proj"; ".gitignore"]; ["home"; "proj"; ".selectignore"]]
  = [["home"; "proj"; ".git"; "config"]].
Proof.
  split; [set_solver|]. split; reflexivity.
Qed.

(** C6, amended. The pattern list of the printer is an enumeration of
    the set of the built-in defaults and the patterns supplied by the
    caller, followed by the patterns read from its ignore file: every
    default and every supplied pattern is in it. The picker has neither
    defaults nor supplied patterns: its list is made of the surviving
    lines of the ignore files that exist, in order. *)
Theorem printer_loads_defaults_picker_loads_files
    (read_lines : Os.path -> option (list string))
    (ignored_folders : option (list string)) (ignore_file : string)
    (root_dir : Os.path) (ignore_files : list Os.path) :
  (exists file_patterns,
     FolderStructureGenerator.load_ignore_patterns read_lines
       (FolderStructureGenerator.init ignored_folders ignore_file) root_dir
     = elements (list_to_set FolderStructureGenerator.DEFAULT_IGNORE_PATTERNS
                 ∪ list_to_set (default [] ignored_folders) : gset string)
       ++ file_patterns) /\
  (forall pattern,
     pattern ∈ FolderStructureGenerator.DEFAULT_IGNORE_PATTERNS \/
     pattern ∈ default [] ignored_folders ->
     pattern ∈ FolderStructureGenerator.load_ignore_patterns read_lines
                 (FolderStructureGenerator.init ignored_folders ignore_file)
                 root_dir) /\
  SelectFiles.load_ignore_patterns read_lines ignore_files
  = flat_map (fun ignore_file =>
                match read_lines ignore_file with
                | Some lines => surviving_lines lines
                | None => []
                end) ignore_files.
Proof.
  split; [|split; [|apply picker_load_ignore_patterns_spec]].
  - unfold FolderStructureGenerator.load_ignore_patterns. simpl.
    destruct (read_lines _); [by eexists|].
    exists []. by rewrite app_nil_r.
  - intros pattern Hin.
    unfold FolderStructureGenerator.load_ignore_patterns. simpl.
    assert (pattern ∈ elements
              (list_to_set FolderStructureGenerator.DEFAULT_IGNORE_PATTERNS
               ∪ list_to_set (default [] ignored_folders) : gset string)).
    { apply elem_of_elements, elem_of_union.
      rewrite !elem_of_list_to_set. done. }
    destruct (read_lines _); [|done]. apply elem_of_app. by left.
Qed.

(** ** The ignore files themselves *)

(** A file directly below the scanned directory is listed by the picker
    exactly when no pattern ignores it. *)
Lemma list_files_top_level
    (fnmatch : string -> string -> bool)
    (read_lines : Os.path -> option (list string))
    (root_dir : Os.path) (entries : list Os.node)
    (ignore_files : list Os.path) (file : string) :
  Os.File file ∈ entries ->
  Os.join root_dir file
    ∈ SelectFiles.list_files fnmatch read_lines root_dir entries ignore_files
  <->
  SelectFiles.is_ignored fnmatch (Os.join root_dir file)
    (SelectFiles.load_ignore_patterns read_lines ignore_files) root_dir
  = false.
Proof.
  intros Hfile. split.
  - intros Hin. by apply walk_listed in Hin as (rel & _ & _ & Hkeep).
  - intros Hkeep. unfold SelectFiles.list_files. simpl.
    apply elem_of_app. left.
    apply list_elem_of_In, filter_In. split; [|by rewrite Hkeep].
    apply list_elem_of_In, list_elem_of_fmap. exists file. split; [done|].
    apply list_elem_of_fmap. exists (Os.File file). split; [done|].
    apply list_elem_of_In, filter_In. split; [|done].
    by apply list_elem_of_In.
Qed.

(** C7, the claim as stated fails for the picker: the [.gitignore] of
    the scanned directory is in its flat file list. *)
Lemma picker_lists_its_ignore_file :
  SelectFiles.list_files Fnmatch.fnmatchcase sample_read_lines
    sample_root sample_entries
    [Os.join sample_root ".gitignore"; Os.join sample_root ".selectignore"]
  = [["home"; "proj"; ".gitignore"]; ["home"; "proj"; ".treeignore"];
     ["home"; "proj"; "main.py"]].
Proof. reflexivity. Qed.

(** C7, amended. The printer leaves every entry named like its
    configured ignore file out of the render tree, at any depth and
    whatever the patterns are. The picker has no such rule: an ignore
    file in the scanned directory is listed like any other file, that
    is, exactly when no loaded pattern ignores it. *)
Theorem ignore_file_left_out_by_printer_only
    (fnmatch : string -> string -> bool)
    (read_lines : Os.path -> option (list string))
    (self : FolderStructureGenerator.t)
    (root_dir : Os.path) (name : string) (entries : list Os.node)
    (ignore_files : list Os.path) :
  (forall before after,
     (root_dir ++ before ++ FolderStructureGenerator.ignore_file self :: after)
       ∉ FolderStructureGenerator.render_tree fnmatch read_lines self
           root_dir (Os.Dir name entries)) /\
  (forall file,
     Os.File file ∈ entries ->
     Os.join root_dir file
       ∈ SelectFiles.list_files fnmatch read_lines root_dir entries
           ignore_files
     <->
     SelectFiles.is_ignored fnmatch (Os.join root_dir file)
       (SelectFiles.load_ignore_patterns read_lines ignore_files) root_dir
     = false).
Proof.
  split; [|intros file; apply list_files_top_level].
  intros before after Hp.
  apply list_elem_of_fmap in Hp as ([p text] & Heq & Hp). simpl in Heq.
  apply recurse_listed in Hp as (rel & Hrel & -> & Hall).
  apply app_inv_head in Heq. subst rel.
  rewrite Forall_forall in Hall.
  destruct (Hall (FolderStructureGenerator.ignore_file self)) as [Hne _];
    [set_solver|done].
Qed.

(** ** Comment lines *)

(** The picker keeps a line exactly when, once trimmed, it is neither
    empty nor a comment. *)
Lemma picker_skips_trimmed_comments (lines : list string) (pattern : string) :
  pattern ∈ surviving_lines lines <->
  exists line, line ∈ lines /\ pattern = Py.strip line /\
               pattern <> "" /\ Py.startswith_char "#" pattern = false.
Proof.
  unfold surviving_lines.
  rewrite list_elem_of_In, filter_In, <- list_elem_of_In, list_elem_of_fmap.
  rewrite andb_true_iff, negb_true_iff. split.
  - intros [(line & -> & Hline) [Hne Hhash]]. exists line.
    split; [done|]. split; [done|]. split; [|done].
    by destruct (Py.strip line).
  - intros (line & Hline & -> & Hne & Hhash).
    split; [by exists line|]. split; [|done]. by destruct (Py.strip line).
Qed.

(** C8, the printer at the failing input: a line of its ignore file made
    of two spaces and a comment becomes the pattern [# comment], while
    the picker drops the same line. *)
Lemma printer_keeps_indented_comment :
  "# comment"
    ∈ FolderStructureGenerator.load_ignore_patterns
        (fun _ => Some ["  # comment" +:+ Py.LF])
        (FolderStructureGenerator.init None ".treeignore") ["home"; "proj"]
  /\
  SelectFiles.load_ignore_patterns
    (fun _ => Some ["  # comment" +:+ Py.LF]) [["home"; "proj"; ".gitignore"]]
  = [].
Proof.
  split; [|reflexivity].
  unfold FolderStructureGenerator.load_ignore_patterns.
  apply elem_of_app. right. vm_compute. apply list_elem_of_here.
Qed.

(** * Further properties of the two tools *)

(** ** What the printer shows *)

Lemma elem_of_concat_imap {A B} (f : nat -> A -> list B) (l : list A)
    (i : nat) (a : A) (b : B) :
  l !! i = Some a -> b ∈ f i a -> b ∈ concat (imap f l).
Proof.
  intros Hi Hb. apply list_elem_of_In, in_concat. exists (f i a).
  split; apply list_elem_of_In; [|done].
  apply elem_of_lookup_imap. by exists i, a.
Qed.

Section PrinterTree.

Variable fnmatch : string -> string -> bool.
Variable self : FolderStructureGenerator.t.
Variable patterns : list string.

(** Each line stands for an entry of the tree, reached through
    admissible names. *)
Lemma recurse_sound dir :
  forall dir_path prefix p text,
    (p, text) ∈ FolderStructureGenerator.recurse fnmatch self patterns dir
                  dir_path prefix ->
    exists rel n, p = dir_path ++ rel /\ entry_at (children_of dir) rel n /\
                  Forall (admissible fnmatch self patterns) rel.
Proof.
  induction dir as [name|name children IH] using node_rect';
    intros dir_path prefix p text Hp; simpl in Hp.
  { by apply elem_of_nil in Hp. }
  apply list_elem_of_In, in_concat in Hp as (lines & Hlines & Hp).
  apply list_elem_of_In, elem_of_lookup_imap in Hlines as (i & e & -> & He).
  apply list_elem_of_lookup_2, visible_elem in He as (He & Hname & Hpat).
  apply list_elem_of_In, in_map_iff in He as (c & <- & Hc).
  apply list_elem_of_In in Hc, Hp.
  unfold FolderStructureGenerator.entry_lines in Hp. simpl in *.
  assert (Hfirst : exists rel n,
            Os.join dir_path (Os.name_of c) = dir_path ++ rel /\
            entry_at children rel n /\
            Forall (admissible fnmatch self patterns) rel).
  { exists [Os.name_of c], c. split; [done|].
    split; [by constructor|]. by repeat constructor. }
  destruct c as [file|d sub]; simpl in *.
  - apply list_elem_of_singleton in Hp. by simplify_eq.
  - apply elem_of_cons in Hp as [Hp|Hp]; [by simplify_eq|].
    rewrite Forall_forall in IH.
    destruct (IH _ Hc _ _ _ _ Hp) as (rel & n & -> & Hat & Hall).
    exists (d :: rel), n. split; [|split].
    + unfold Os.join. by rewrite <- app_assoc.
    + by eapply entry_below.
    + by repeat constructor.
Qed.

(** Each entry reached through admissible names has its line. *)
Lemma recurse_complete children rel n :
  entry_at children rel n ->
  Forall (admissible fnmatch self patterns) rel ->
  forall name dir_path prefix,
    exists text,
      (dir_path ++ rel, text)
        ∈ FolderStructureGenerator.recurse fnmatch self patterns
            (Os.Dir name children) dir_path prefix.
Proof.
  induction 1 as [entries n Hn|entries d children rel n Hd _ IH];
    intros Hall name dir_path prefix; simpl.
  - apply Forall_cons_1 in Hall as [[Hne Hpat] _].
    set (e := FolderStructureGenerator.Listed (Os.name_of n) (Os.isdir n)
                (FolderStructureGenerator.recurse fnmatch self patterns n)).
    assert (He : e ∈ FolderStructureGenerator.visible fnmatch self patterns
                   (List.map
                      (fun c => FolderStructureGenerator.Listed
                                  (Os.name_of c) (Os.isdir c)
                                  (FolderStructureGenerator.recurse fnmatch
                                     self patterns c)) entries)).
    { apply visible_elem. split; [|done].
      apply list_elem_of_In, in_map_iff. exists n.
      split; [done|]. by apply list_elem_of_In. }
    apply list_elem_of_lookup_1 in He as [i Hi]. subst e.
    destruct n as [file|d sub]; eexists;
      (eapply elem_of_concat_imap; [exact Hi|]);
      unfold FolderStructureGenerator.entry_lines; simpl;
      apply list_elem_of_here.
  - apply Forall_cons_1 in Hall as [[Hne Hpat] Hall].
    set (e := FolderStructureGenerator.Listed d true
                (FolderStructureGenerator.recurse fnmatch self patterns
                   (Os.Dir d children))).
    assert (He : e ∈ FolderStructureGenerator.visible fnmatch self patterns
                   (List.map
                      (fun c => FolderStructureGenerator.Listed
                                  (Os.name_of c) (Os.isdir c)
                                  (FolderStructureGenerator.recurse fnmatch
                                     self patterns c)) entries)).
    { apply visible_elem. split; [|done].
      apply list_elem_of_In, in_map_iff. exists (Os.Dir d children).
      split; [done|]. by apply list_elem_of_In. }
    apply list_elem_of_lookup_1 in He as [i Hi].
    destruct (IH Hall d (Os.join dir_path d)
                (prefix +:+
                 (if i <? length (FolderStructureGenerator.visible fnmatch
                                    self patterns
                      (List.map
                         (fun c => FolderStructureGenerator.Listed
                                     (Os.name_of c) (Os.isdir c)
                                     (FolderStructureGenerator.recurse
                                        fnmatch self patterns c)) entries))
                          - 1
                  then "│   " else "    "))) as [text Htext].
    exists text. eapply elem_of_concat_imap; [exact Hi|].
    unfold FolderStructureGenerator.entry_lines. simpl.
    apply list_elem_of_further.
    unfold Os.join in Htext. by rewrite <- app_assoc in Htext.
Qed.

End PrinterTree.

(** X1. The render tree of the printer holds exactly the entries of the
    scanned directory that are reached through admissible names only:
    names other than the ignore file's that no loaded pattern matches.
    An entry is shown when itself and every directory above it are
    admissible, and nothing else is shown. *)
Theorem render_tree_is_the_admissible_entries
    (fnmatch : string -> string -> bool)
    (read_lines : Os.path -> option (list string))
    (self : FolderStructureGenerator.t)
    (root_dir : Os.path) (name : string) (entries : list Os.node)
    (p : Os.path) :
  p ∈ FolderStructureGenerator.render_tree fnmatch read_lines self root_dir
        (Os.Dir name entries)
  <->
  exists rel n,
    p = root_dir ++ rel /\ entry_at entries rel n /\
    Forall (admissible fnmatch self
              (FolderStructureGenerator.load_ignore_patterns read_lines self
                 root_dir)) rel.
Proof.
  unfold FolderStructureGenerator.render_tree. split.
  - intros ([q text] & -> & Hq)%list_elem_of_fmap. simpl.
    by apply recurse_sound in Hq.
  - intros (rel & n & -> & Hat & Hall).
    destruct (recurse_complete fnmatch self _ _ _ _ Hat Hall name root_dir "")
      as [text Htext].
    apply list_elem_of_fmap. by exists (root_dir ++ rel, text).
Qed.

(** ** What the picker lists *)

Section PickerTree.

Variable fnmatch : string -> string -> bool.
Variable patterns : list string.
Variable root_dir : Os.path.

(** A path is ignored exactly when one pattern of the list excludes it:
    the patterns are tested independently of each other. *)
Lemma is_ignored_existsb path (ps : list string) :
  SelectFiles.is_ignored fnmatch path ps root_dir
  = existsb (excludes fnmatch path root_dir) ps.
Proof.
  induction ps as [|q ps IH]; simpl; [done|].
  unfold excludes at 1. rewrite IH.
  destruct (Py.endswith_char "/" q).
  - by case_bool_decide.
  - by destruct (fnmatch _ q).
Qed.

Lemma walk_sound top :
  forall dirpath p,
    p ∈ SelectFiles.walk fnmatch patterns root_dir dirpath top ->
    exists rel file,
      p = dirpath ++ rel /\
      entry_at (children_of top) rel (Os.File file) /\
      kept fnmatch patterns root_dir dirpath rel = true.
Proof.
  induction top as [name|name entries IH] using node_rect';
    intros dirpath p Hp; simpl in Hp.
  { by apply elem_of_nil in Hp. }
  apply elem_of_app in Hp as [Hp|Hp].
  - apply list_elem_of_In, filter_In in Hp as [Hp Hkeep].
    apply list_elem_of_In, list_elem_of_fmap in Hp as (f & -> & Hf).
    apply list_elem_of_fmap in Hf as (e & -> & He).
    apply list_elem_of_In, filter_In in He as [He Hfile].
    apply list_elem_of_In in He.
    destruct e as [file|d sub]; [|done].
    exists [file], file. split; [done|].
    split; [by apply (entry_here entries (Os.File file))|].
    simpl in *. by rewrite Hkeep.
  - apply list_elem_of_In, in_flat_map in Hp as (d & Hd & Hp).
    apply list_elem_of_In in Hd, Hp.
    destruct d as [file|d sub]; simpl in Hp; [by apply elem_of_nil in Hp|].
    destruct (negb _) eqn:Hkeep; [|by apply elem_of_nil in Hp].
    rewrite Forall_forall in IH.
    destruct (IH _ Hd _ _ Hp) as (rel & file & -> & Hat & Hrel).
    exists (d :: rel), file. split; [|split].
    + unfold Os.join. by rewrite <- app_assoc.
    + by eapply entry_below.
    + simpl. by rewrite Hkeep, Hrel.
Qed.

Lemma walk_complete children rel n :
  entry_at children rel n ->
  forall file name dirpath,
    n = Os.File file ->
    kept fnmatch patterns root_dir dirpath rel = true ->
    (dirpath ++ rel)
      ∈ SelectFiles.walk fnmatch patterns root_dir dirpath
          (Os.Dir name children).
Proof.
  induction 1 as [entries n Hn|entries d children rel n Hd _ IH];
    intros file name dirpath -> Hkept; simpl in *.
  - apply andb_true_iff in Hkept as [Hkeep _].
    apply elem_of_app. left.
    apply list_elem_of_In, filter_In. split; [|done].
    apply list_elem_of_In, list_elem_of_fmap. exists file. split; [done|].
    apply list_elem_of_fmap. exists (Os.File file). split; [done|].
    apply list_elem_of_In, filter_In. split; [|done].
    by apply list_elem_of_In.
  - apply andb_true_iff in Hkept as [Hkeep Hkept].
    apply elem_of_app. right.
    apply list_elem_of_In, in_flat_map. exists (Os.Dir d children).
    split; [by apply list_elem_of_In|]. simpl. rewrite Hkeep.
    apply list_elem_of_In.
    specialize (IH file d (Os.join dirpath d) eq_refl Hkept).
    unfold Os.join in *. by rewrite <- app_assoc in IH.
Qed.

(** A kept path has no ignored directory above its last name. *)
Lemma kept_app dirpath before name after :
  kept fnmatch patterns root_dir dirpath (before ++ name :: after) = true ->
  SelectFiles.is_ignored fnmatch (dirpath ++ before ++ [name]) patterns
    root_dir = false.
Proof.
  revert dirpath. induction before as [|x before IH]; intros dirpath; simpl.
  - intros [Hkeep _]%andb_true_iff. by apply negb_true_iff in Hkeep.
  - intros [_ Hkept]%andb_true_iff. apply IH in Hkept.
    unfold Os.join in Hkept. by rewrite <- app_assoc in Hkept.
Qed.

End PickerTree.

(** Adding patterns can only turn kept paths into ignored ones. *)
Lemma kept_more_patterns (fnmatch : string -> string -> bool)
    (fewer more : list string) (root_dir : Os.path) rel :
  fewer ⊆ more ->
  forall dirpath,
    kept fnmatch more root_dir dirpath rel = true ->
    kept fnmatch fewer root_dir dirpath rel = true.
Proof.
  intros Hsub. induction rel as [|x rel IH]; intros dirpath; simpl; [done|].
  rewrite !andb_true_iff, !negb_true_iff. intros [Hkeep Hkept].
  split; [|by apply IH].
  apply not_true_is_false. rewrite is_ignored_existsb, existsb_exists.
  intros (q & Hq & Hex). apply list_elem_of_In, Hsub in Hq.
  rewrite is_ignored_existsb in Hkeep.
  apply not_true_iff_false in Hkeep. apply Hkeep, existsb_exists.
  exists q. split; [by apply list_elem_of_In|done].
Qed.

(** X2. The flat file list of the picker holds exactly the files of the
    scanned directory that are kept: the file itself is not ignored, and
    no directory on the way down to it is. It never holds a directory,
    nor a path that is not in the tree. *)
Theorem list_files_is_the_kept_files
    (fnmatch : string -> string -> bool)
    (read_lines : Os.path -> option (list string))
    (root_dir : Os.path) (entries : list Os.node)
    (ignore_files : list Os.path) (p : Os.path) :
  p ∈ SelectFiles.list_files fnmatch read_lines root_dir entries ignore_files
  <->
  exists rel file,
    p = root_dir ++ rel /\
    entry_at entries rel (Os.File file) /\
    kept fnmatch (SelectFiles.load_ignore_patterns read_lines ignore_files)
      root_dir root_dir rel = true.
Proof.
  unfold SelectFiles.list_files. split.
  - intros Hp. by apply walk_sound in Hp.
  - intros (rel & file & -> & Hat & Hkept). by eapply walk_complete.
Qed.

(** X3. The walk of the picker is monotone in the patterns: with more
    patterns it lists a part of what it lists with fewer, whatever the
    order in which the patterns are given. *)
Theorem walk_lists_less_with_more_patterns
    (fnmatch : string -> string -> bool)
    (fewer more : list string) (root_dir : Os.path)
    (name : string) (entries : list Os.node) :
  fewer ⊆ more ->
  SelectFiles.walk fnmatch more root_dir root_dir (Os.Dir name entries)
  ⊆ SelectFiles.walk fnmatch fewer root_dir root_dir (Os.Dir name entries).
Proof.
  intros Hsub p Hp.
  apply walk_sound in Hp as (rel & file & -> & Hat & Hkept).
  eapply walk_complete; [done..|]. by eapply kept_more_patterns.
Qed.

Lemma walk_lists_less_with_more_patterns_witness :
  ["*.py"] ⊆ ["build/"; "*.py"] /\
  SelectFiles.walk Fnmatch.fnmatchcase ["build/"; "*.py"] sample_root
    sample_root (Os.Dir "proj" sample_entries)
  ⊆ SelectFiles.walk Fnmatch.fnmatchcase ["*.py"] sample_root
      sample_root (Os.Dir "proj" sample_entries).
Proof.
  assert (Hsub : ["*.py"] ⊆ ["build/"; "*.py"]) by set_solver.
  split; [exact Hsub|].
  exact (walk_lists_less_with_more_patterns Fnmatch.fnmatchcase
           ["*.py"] ["build/"; "*.py"] sample_root "proj" sample_entries
           Hsub).
Defined.

(** ** Glob patterns and directories *)

Lemma matches_glob_pattern (fnmatch : string -> string -> bool)
    (patterns : list string) (pattern entry : string) :
  pattern ∈ patterns ->
  Py.endswith_char "/" pattern = false ->
  fnmatch entry pattern = true ->
  FolderStructureGenerator.matches_ignore_pattern fnmatch patterns entry
  = true.
Proof.
  intros Hin Hglob Hmatch.
  induction patterns as [|q patterns IH]; [by apply elem_of_nil in Hin|].
  apply elem_of_cons in Hin as [<-|Hin]; simpl.
  - by rewrite Hglob, Hmatch.
  - destruct (Py.endswith_char "/" q).
    + case_bool_decide; [done|]. by apply IH.
    + destruct (fnmatch entry q); [done|]. by apply IH.
Qed.

Lemma basename_below (root before : Os.path) (name : string) :
  Os.basename (root ++ before ++ [name]) = name.
Proof. unfold Os.basename. by rewrite app_assoc, last_last. Qed.

(** X4. A pattern without a trailing separator that matches the name of a
    directory removes the directory and everything below it, from the
    flat file list of the picker and from the render tree of the printer:
    the walk does not descend into a directory whose name a glob
    matches, even when the glob matches none of the files below. *)
Theorem glob_matching_directory_prunes_subtree
    (fnmatch : string -> string -> bool)
    (read_lines : Os.path -> option (list string))
    (self : FolderStructureGenerator.t)
    (root_dir : Os.path) (name : string) (entries : list Os.node)
    (ignore_files : list Os.path)
    (pattern d : string) (before after : list string) :
  Py.endswith_char "/" pattern = false ->
  fnmatch d pattern = true ->
  (pattern ∈ SelectFiles.load_ignore_patterns read_lines ignore_files ->
   (root_dir ++ before ++ d :: after)
     ∉ SelectFiles.list_files fnmatch read_lines root_dir entries ignore_files)
  /\
  (pattern ∈ FolderStructureGenerator.load_ignore_patterns read_lines self
               root_dir ->
   (root_dir ++ before ++ d :: after)
     ∉ FolderStructureGenerator.render_tree fnmatch read_lines self root_dir
         (Os.Dir name entries)).
Proof.
  intros Hglob Hmatch. split; intros Hin Hp.
  - apply walk_sound in Hp as (rel & file & Heq & _ & Hkept).
    apply app_inv_head in Heq. subst rel.
    apply kept_app in Hkept.
    rewrite is_ignored_existsb in Hkept.
    apply not_true_iff_false in Hkept. apply Hkept, existsb_exists.
    exists pattern. split; [by apply list_elem_of_In|].
    unfold excludes. by rewrite Hglob, basename_below.
  - apply list_elem_of_fmap in Hp as ([p text] & Heq & Hp). simpl in Heq.
    apply recurse_listed in Hp as (rel & Hrel & -> & Hall).
    apply app_inv_head in Heq. subst rel.
    rewrite Forall_forall in Hall.
    destruct (Hall d) as [_ Hno]; [set_solver|].
    by rewrite (matches_glob_pattern fnmatch _ pattern) in Hno.
Qed.

Lemma glob_matching_directory_prunes_subtree_witness :
  Py.endswith_char "/" "__pycache__" = false /\
  Fnmatch.fnmatchcase "__pycache__" "__pycache__" = true /\
  Fnmatch.fnmatchcase "main.cpython-311.pyc" "__pycache__" = false /\
  (["home"; "proj"; "src"; "__pycache__"; "main.cpython-311.pyc"]
     ∉ SelectFiles.list_files Fnmatch.fnmatchcase cache_read_lines
         sample_root cache_entries
         [Os.join sample_root ".gitignore";
          Os.join sample_root ".selectignore"]) /\
  (["home"; "proj"; "src"; "__pycache__"; "main.cpython-311.pyc"]
     ∉ FolderStructureGenerator.render_tree Fnmatch.fnmatchcase
         (fun _ => None) sample_printer sample_root
         (Os.Dir "proj" cache_entries)).
Proof.
  split; [reflexivity|]. split; [reflexivity|]. split; [reflexivity|].
  split.
  - destruct (glob_matching_directory_prunes_subtree Fnmatch.fnmatchcase
                cache_read_lines sample_printer sample_root "proj"
                cache_entries
                [Os.join sample_root ".gitignore";
                 Os.join sample_root ".selectignore"]
                "__pycache__" "__pycache__" ["src"]
                ["main.cpython-311.pyc"] eq_refl eq_refl) as [Hpick _].
    apply Hpick. vm_compute. apply list_elem_of_here.
  - destruct (glob_matching_directory_prunes_subtree Fnmatch.fnmatchcase
                (fun _ => None) sample_printer sample_root "proj"
                cache_entries [] "__pycache__" "__pycache__" ["src"]
                ["main.cpython-311.pyc"] eq_refl eq_refl) as [_ Hprint].
    apply Hprint. vm_compute.
    repeat first [apply list_elem_of_here | apply list_elem_of_further].
Defined.

(** ** Trimmed patterns *)

Lemma lstrip_unfold (s : string) :
  Py.lstrip s = match Py.leading_space s with
                | Some rest => Py.lstrip rest
                | None => s
                end.
Proof.
  destruct s as [|a [|b [|c s]]]; simpl; [done|..];
    destruct (Py.isspace1 a); try done;
    destruct (Py.isspace2 a b); try done;
    by destruct (Py.isspace3 a b c).
Qed.

Lemma leading_space_length (s rest : string) :
  Py.leading_space s = Some rest -> String.length rest < String.length s.
Proof.
  destruct s as [|a [|b [|c s]]]; simpl; [done|..];
    destruct (Py.isspace1 a); try (intros [= <-]; simpl; lia); try done;
    destruct (Py.isspace2 a b); try (intros [= <-]; simpl; lia); try done;
    destruct (Py.isspace3 a b c); try (intros [= <-]; simpl; lia); done.
Qed.

(** A white-space character at the start of a string is one at the start
    of every extension of it. *)
Lemma leading_space_app (s rest t : string) :
  Py.leading_space s = Some rest ->
  Py.leading_space (s +:+ t) = Some (rest +:+ t).
Proof.
  destruct s as [|a [|b [|c s]]]; [done|..]; rewrite ?append_cons;
    cbn [Py.leading_space];
    destruct (Py.isspace1 a); try (by intros [= <-]);
    destruct (Py.isspace2 a b); try (by intros [= <-]);
    destruct (Py.isspace3 a b c); try (by intros [= <-]); try done.
  all: destruct t as [|d [|d' t]]; try done.
Qed.

Lemma lstrip_no_leading_space (s : string) :
  Py.leading_space (Py.lstrip s) = None.
Proof.
  remember (String.length s) as n eqn:Hn.
  revert s Hn. induction n as [n IH] using lt_wf_ind. intros s ->.
  rewrite lstrip_unfold. destruct (Py.leading_space s) as [rest|] eqn:Hs;
    [|done].
  by apply (IH _ (leading_space_length _ _ Hs)).
Qed.

Lemma lstrip_fixed (s : string) :
  Py.leading_space s = None -> Py.lstrip s = s.
Proof. intros Hs. by rewrite lstrip_unfold, Hs. Qed.

(** White space before a text is stripped from the left as a whole. *)
Lemma lstrip_app_space (s t : string) :
  Py.lstrip s = "" -> Py.lstrip (s +:+ t) = Py.lstrip t.
Proof.
  remember (String.length s) as n eqn:Hn.
  revert s Hn. induction n as [n IH] using lt_wf_ind. intros s -> Hs.
  rewrite lstrip_unfold in Hs.
  destruct (Py.leading_space s) as [rest|] eqn:Hlead.
  - rewrite (lstrip_unfold (s +:+ t)), (leading_space_app _ _ t Hlead).
    by apply (IH _ (leading_space_length _ _ Hlead)).
  - by subst s.
Qed.

Lemma rstrip_unfold (a : ascii) (s : string) :
  Py.rstrip (String a s)
  = if Py.all_space (String a s) then "" else String a (Py.rstrip s).
Proof. done. Qed.

(** What [rstrip] removes is white space at the end. *)
Lemma rstrip_split (s : string) :
  exists w, s = Py.rstrip s +:+ w /\ Py.lstrip w = "".
Proof.
  induction s as [|a s (w & Hs & Hw)]; [by exists ""|].
  rewrite rstrip_unfold. unfold Py.all_space.
  destruct (Py.lstrip (String a s)) eqn:Hall.
  - by exists (String a s).
  - exists w. by rewrite append_cons, <- Hs.
Qed.

Lemma rstrip_idemp (s : string) : Py.rstrip (Py.rstrip s) = Py.rstrip s.
Proof.
  induction s as [|a s IH]; [done|].
  rewrite rstrip_unfold. destruct (Py.all_space (String a s)) eqn:Hall;
    [done|].
  rewrite rstrip_unfold, IH.
  destruct (Py.all_space (String a (Py.rstrip s))) eqn:Hall'; [|done].
  destruct (rstrip_split s) as (w & Hs & Hw).
  unfold Py.all_space in Hall, Hall'.
  destruct (Py.lstrip (String a (Py.rstrip s))) eqn:Hl; [|done].
  rewrite Hs, <- append_cons, (lstrip_app_space _ w Hl), Hw in Hall. done.
Qed.

Lemma rstrip_no_leading_space (s : string) :
  Py.leading_space s = None -> Py.leading_space (Py.rstrip s) = None.
Proof.
  intros Hs. destruct (rstrip_split s) as (w & Heq & _).
  destruct (Py.leading_space (Py.rstrip s)) as [rest|] eqn:Hr; [|done].
  apply (leading_space_app _ _ w) in Hr. rewrite <- Heq in Hr. congruence.
Qed.

(** Trimming a trimmed string changes nothing. *)
Lemma strip_idemp (s : string) : Py.strip (Py.strip s) = Py.strip s.
Proof.
  unfold Py.strip.
  rewrite (lstrip_fixed (Py.rstrip (Py.lstrip s))).
  - apply rstrip_idemp.
  - apply rstrip_no_leading_space, lstrip_no_leading_space.
Qed.

(** X5. The patterns the picker loads are exactly the trimmed lines of
    its existing ignore files that are neither empty nor comments once
    trimmed; a missing ignore file contributes nothing, and every loaded
    pattern is free of surrounding white space. *)
Theorem picker_patterns_are_trimmed_lines
    (read_lines : Os.path -> option (list string))
    (ignore_files : list Os.path) (pattern : string) :
  (pattern ∈ SelectFiles.load_ignore_patterns read_lines ignore_files <->
   exists ignore_file lines line,
     ignore_file ∈ ignore_files /\
     read_lines ignore_file = Some lines /\
     line ∈ lines /\
     pattern = Py.strip line /\
     pattern <> "" /\
     Py.startswith_char "#" pattern = false) /\
  (pattern ∈ SelectFiles.load_ignore_patterns read_lines ignore_files ->
   Py.strip pattern = pattern).
Proof.
  assert (Hiff :
    pattern ∈ SelectFiles.load_ignore_patterns read_lines ignore_files <->
    exists ignore_file lines line,
      ignore_file ∈ ignore_files /\
      read_lines ignore_file = Some lines /\
      line ∈ lines /\
      pattern = Py.strip line /\
      pattern <> "" /\
      Py.startswith_char "#" pattern = false).
  { rewrite picker_load_ignore_patterns_spec, list_elem_of_In, in_flat_map.
    split.
    - intros (f & Hf & Hin). apply list_elem_of_In in Hf, Hin.
      destruct (read_lines f) as [lines|] eqn:Hread;
        [|by apply elem_of_nil in Hin].
      apply picker_skips_trimmed_comments in Hin as (line & ? & ? & ? & ?).
      by exists f, lines, line.
    - intros (f & lines & line & Hf & Hread & Hline & Hrest).
      exists f. split; [by apply list_elem_of_In|].
      rewrite Hread. apply list_elem_of_In, picker_skips_trimmed_comments.
      by exists line. }
  split; [exact Hiff|].
  intros (f & lines & line & _ & _ & _ & -> & _)%Hiff. apply strip_idemp.
Qed.

(** X6. The patterns the printer loads are exactly the built-in
    defaults, the patterns supplied by the caller, and the trimmed lines
    of its ignore file that are not blank and do not begin with the
    comment mark; without an ignore file, the defaults and the supplied
    patterns alone. *)
Theorem printer_patterns_are_defaults_supplied_and_lines
    (read_lines : Os.path -> option (list string))
    (ignored_folders : option (list string)) (ignore_file : string)
    (root_dir : Os.path) (pattern : string) :
  pattern ∈ FolderStructureGenerator.load_ignore_patterns read_lines
              (FolderStructureGenerator.init ignored_folders ignore_file)
              root_dir
  <->
  pattern ∈ FolderStructureGenerator.DEFAULT_IGNORE_PATTERNS \/
  pattern ∈ default [] ignored_folders \/
  exists lines line,
    read_lines (Os.join root_dir ignore_file) = Some lines /\
    line ∈ lines /\
    pattern = Py.strip line /\
    pattern <> "" /\
    Py.startswith_char "#" line = false.
Proof.
  unfold FolderStructureGenerator.load_ignore_patterns.
  cbn [FolderStructureGenerator.ignored_folders
       FolderStructureGenerator.ignore_file FolderStructureGenerator.init].
  assert (Hset : forall q,
            q ∈ elements
                  (list_to_set FolderStructureGenerator.DEFAULT_IGNORE_PATTERNS
                   ∪ list_to_set (default [] ignored_folders) : gset string)
            <-> q ∈ FolderStructureGenerator.DEFAULT_IGNORE_PATTERNS \/
                q ∈ default [] ignored_folders).
  { intros q. by rewrite elem_of_elements, elem_of_union,
                 !elem_of_list_to_set. }
  destruct (read_lines _) as [lines|].
  - rewrite elem_of_app, Hset, list_elem_of_fmap. split.
    + intros [[?|?]|(line & -> & Hline)]; [by left|by right; left|].
      apply list_elem_of_In, filter_In in Hline as [Hline Hkeep].
      apply andb_true_iff in Hkeep as [Hne Hhash].
      right. right. exists lines, line. split; [done|].
      split; [by apply list_elem_of_In|]. split; [done|].
      split; [by destruct (Py.strip line)|by apply negb_true_iff].
    + intros [?|[?|(lines' & line & [= <-] & Hline & -> & Hne & Hhash)]];
        [by left; left|by left; right|].
      right. exists line. split; [done|].
      apply list_elem_of_In, filter_In. split; [by apply list_elem_of_In|].
      apply andb_true_iff. split; [by destruct (Py.strip line)|].
      by apply negb_true_iff.
  - rewrite Hset. split; [intros [?|?]; [by left|by right; left]|].
    intros [?|[?|(lines' & line & [=] & _)]]; [by left|by right].
Qed.

(** ** The inverse key table *)

Lemma get_key_mapping_app (before after : Py.dict nat string) :
  SelectFiles.get_key_mapping (before ++ after)
  = foldl (fun acc item => <[item.2 := item.1]> acc)
          (SelectFiles.get_key_mapping before) after.
Proof. unfold SelectFiles.get_key_mapping. apply foldl_app. Qed.

Lemma foldl_insert_other (items : Py.dict nat string) (key : string) :
  key ∉ items.*2 ->
  forall acc : gmap string nat,
    foldl (fun acc item => <[item.2 := item.1]> acc) acc items !! key
    = acc !! key.
Proof.
  induction items as [|[i k] items IH]; intros Hkey acc; simpl in *; [done|].
  apply not_elem_of_cons in Hkey as [Hne Hkey].
  rewrite IH by done. by rewrite lookup_insert_ne.
Qed.

Lemma get_key_mapping_last (before after : Py.dict nat string)
    (idx : nat) (key : string) :
  key ∉ after.*2 ->
  SelectFiles.get_key_mapping (before ++ (idx, key) :: after) !! key
  = Some idx.
Proof.
  intros Hafter. rewrite get_key_mapping_app. simpl.
  rewrite foldl_insert_other by done. apply lookup_insert_eq.
Qed.

Lemma get_key_mapping_absent (keys : Py.dict nat string) (key : string) :
  key ∉ keys.*2 -> SelectFiles.get_key_mapping keys !! key = None.
Proof.
  intros Hkey. unfold SelectFiles.get_key_mapping.
  by rewrite foldl_insert_other.
Qed.

Lemma last_item_with_key (keys : Py.dict nat string) (key : string) :
  key ∈ keys.*2 ->
  exists before i after,
    keys = before ++ (i, key) :: after /\ key ∉ after.*2.
Proof.
  induction keys as [|[i k] items IH]; simpl.
  { by intros ?%elem_of_nil. }
  intros Hin. destruct (decide (key ∈ items.*2)) as [Hlater|Hlater].
  - destruct (IH Hlater) as (before & j & after & -> & Hafter).
    by exists ((i, k) :: before), j, after.
  - apply elem_of_cons in Hin as [->|?]; [|done].
    by exists [], i, items.
Qed.

(** X7. The inverse table sends a key to the index of the last item that
    carries it, and knows no other key: when a key is given to several
    indices, only the last of them can be reached from the keyboard. *)
Theorem inverse_table_keeps_last_index
    (keys : Py.dict nat string) (key : string) (idx : nat) :
  (SelectFiles.get_key_mapping keys !! key = Some idx <->
   exists before after,
     keys = before ++ (idx, key) :: after /\ key ∉ after.*2) /\
  (SelectFiles.get_key_mapping keys !! key = None <-> key ∉ keys.*2).
Proof.
  pose proof (fun before after i =>
                get_key_mapping_last before after i key) as Hlast.
  pose proof (get_key_mapping_absent keys key) as Hnone.
  pose proof (last_item_with_key keys key) as Hsplit.
  split; split.
  - intros Hget. destruct (decide (key ∈ keys.*2)) as [Hin|Hin].
    + destruct (Hsplit Hin) as (before & i & after & -> & Hafter).
      rewrite Hlast in Hget by done. simplify_eq. by exists before, after.
    + by rewrite Hnone in Hget.
  - intros (before & after & -> & Hafter). by apply Hlast.
  - intros Hget Hin.
    destruct (Hsplit Hin) as (before & i & after & -> & Hafter).
    by rewrite Hlast in Hget.
  - done.
Qed.

(** X8. Over distinct keys the two tables of the picker are inverse to
    each other: an index has a key in the table of [assign_keys] exactly
    when the inverse table sends that key back to the index, so every
    file that is shown with a key is toggled by that key and by no
    other. *)
Theorem key_tables_are_inverse
    (num_files : nat) (key_sequence : list string)
    (mapping : Py.dict nat string) (overflow : bool)
    (idx : nat) (key : string) :
  NoDup key_sequence ->
  SelectFiles.assign_keys num_files key_sequence
  = Os.Done (mapping, overflow) ->
  Py.dict_get mapping idx = Some key <->
  SelectFiles.get_key_mapping mapping !! key = Some idx.
Proof.
  intros Hnd Hassign.
  destruct (assign_keys_items num_files key_sequence)
    as (mapping' & Heq & Hfst & Hget).
  rewrite Hassign in Heq. injection Heq as <- _.
  assert (Hkeys : NoDup mapping.*1) by (rewrite Hfst; apply NoDup_seq).
  split.
  - intros Hkey. pose proof Hkey as Hin.
    apply dict_get_elem in Hin; [|done].
    apply list_elem_of_split in Hin as (before & after & ->).
    apply get_key_mapping_last.
    intros ([j k] & Hk & Hj)%list_elem_of_fmap. simpl in Hk. subst k.
    assert (Py.dict_get (before ++ (idx, key) :: after) j = Some key)
      as Hjkey by (apply dict_get_elem; [done|set_solver]).
    apply Hget in Hkey as [_ Hkey]. apply Hget in Hjkey as [_ Hjkey].
    assert (j = idx) as ->
      by exact (NoDup_lookup key_sequence j idx key Hnd Hjkey Hkey).
    rewrite fmap_app, fmap_cons in Hkeys.
    apply NoDup_app in Hkeys as (_ & _ & Hkeys).
    apply NoDup_cons in Hkeys as [Hfresh _]. apply Hfresh.
    apply list_elem_of_fmap. by exists (idx, key).
  - intros Hkey. apply dict_get_elem; [done|].
    by apply get_key_mapping_lookup.
Qed.

Lemma key_tables_are_inverse_witness :
  NoDup SelectFiles.key_sequence /\
  SelectFiles.assign_keys 3 SelectFiles.key_sequence
  = Os.Done ([(0, "a"); (1, "A"); (2, "b")], false) /\
  SelectFiles.get_key_mapping [(0, "a"); (1, "A"); (2, "b")] !! "A" = Some 1.
Proof.
  split; [exact key_sequence_distinct|]. split; [reflexivity|].
  apply (key_tables_are_inverse 3 SelectFiles.key_sequence
           [(0, "a"); (1, "A"); (2, "b")] false 1 "A"
           key_sequence_distinct eq_refl).
  reflexivity.
Defined.

(** ** The session as a whole *)

Lemma session_loop_parity (key_to_index : gmap string nat)
    (pressed rest : list string) :
  Py.LF ∉ pressed ->
  forall selected,
    exists result,
      SelectFiles.session_loop key_to_index selected
        (pressed ++ Py.LF :: rest) = Some result /\
      forall idx,
        idx ∈ result <->
        if Nat.even (presses key_to_index idx pressed)
        then idx ∈ selected else idx ∉ selected.
Proof.
  induction pressed as [|key pressed IH]; intros Hno selected.
  { exists selected. split; [|done].
    cbn [app SelectFiles.session_loop].
    unfold SelectFiles.handle_key. by rewrite decide_True. }
  apply not_elem_of_cons in Hno as [Hkey Hno].
  assert (Hstep : exists next,
            SelectFiles.handle_key key_to_index selected key
            = SelectFiles.Browsing next /\
            forall idx,
              idx ∈ next <->
              if bool_decide (key_to_index !! key = Some idx)
              then idx ∉ selected else idx ∈ selected).
  { unfold SelectFiles.handle_key. rewrite decide_False by done.
    destruct (key_to_index !! key) as [i|] eqn:Hi.
    - destruct (decide (i ∈ selected)); eexists; (split; [done|]);
        intros idx; case_bool_decide; simplify_eq; set_solver.
    - exists selected. split; [done|]. intros idx. by case_bool_decide. }
  destruct Hstep as (next & Hnext & Hflip).
  destruct (IH Hno next) as (result & Hrun & Hres).
  exists result.
  split; [cbn [app SelectFiles.session_loop]; by rewrite Hnext|].
  intros idx. rewrite Hres. specialize (Hflip idx).
  unfold presses in *. cbn [List.filter].
  destruct (bool_decide (key_to_index !! key = Some idx)); cbn [length].
  - rewrite Nat.even_succ, <- Nat.negb_even.
    destruct (Nat.even _); simpl; [done|].
    destruct (decide (idx ∈ selected)); tauto.
  - destruct (Nat.even _); tauto.
Qed.

(** X9. When Enter is pressed, the session returns, and the selection it
    returns holds exactly the indices whose key was pressed an odd
    number of times before the first Enter; what is typed after Enter is
    not read. *)
Theorem session_selects_odd_presses
    (files : list Os.path) (key_mapping : Py.dict nat string)
    (root_dir : Os.path) (pressed rest : list string) :
  Py.LF ∉ pressed ->
  exists selected,
    SelectFiles.interactive_file_selection files key_mapping root_dir
      (pressed ++ Py.LF :: rest) = Some selected /\
    forall idx,
      idx ∈ selected <->
      Nat.odd (presses (SelectFiles.get_key_mapping key_mapping) idx pressed)
      = true.
Proof.
  intros Hno. unfold SelectFiles.interactive_file_selection.
  destruct (session_loop_parity (SelectFiles.get_key_mapping key_mapping)
              pressed rest Hno ∅) as (selected & Hrun & Hsel).
  exists selected. split; [done|]. intros idx.
  rewrite Hsel, <- Nat.negb_even.
  destruct (Nat.even _); simpl; set_solver.
Qed.

Lemma session_selects_odd_presses_witness :
  (Py.LF ∉ ["a"; "b"; "x"; "a"; "A"]) /\
  exists selected,
    SelectFiles.interactive_file_selection sample_files
      [(0, "a"); (1, "A"); (2, "b")] ["tmp"]
      (["a"; "b"; "x"; "a"; "A"] ++ Py.LF :: ["b"]) = Some selected /\
    (0 ∉ selected) /\ (1 ∈ selected) /\ (2 ∈ selected).
Proof.
  assert (Hno : Py.LF ∉ ["a"; "b"; "x"; "a"; "A"]).
  { intros Hin. repeat (apply elem_of_cons in Hin as [Hin|Hin];
                        [discriminate Hin|]).
    by apply elem_of_nil in Hin. }
  split; [exact Hno|].
  destruct (session_selects_odd_presses sample_files
              [(0, "a"); (1, "A"); (2, "b")] ["tmp"]
              ["a"; "b"; "x"; "a"; "A"] ["b"] Hno)
    as (selected & Hrun & Hsel).
  exists selected. split; [exact Hrun|]. split; [|split].
  - intros Hin. apply Hsel in Hin. discriminate Hin.
  - apply Hsel. reflexivity.
  - apply Hsel. reflexivity.
Defined.

Lemma session_loop_waits (key_to_index : gmap string nat)
    (keys : list string) :
  Py.LF ∉ keys ->
  forall selected,
    SelectFiles.session_loop key_to_index selected keys = None.
Proof.
  induction keys as [|key keys IH]; intros Hno selected; [done|].
  apply not_elem_of_cons in Hno as [Hkey Hno]. simpl.
  unfold SelectFiles.handle_key. rewrite decide_False by done.
  destruct (key_to_index !! key); [destruct (decide _)|]; by apply IH.
Qed.

Lemma session_loop_returns (key_to_index : gmap string nat)
    (selected : gset nat) (keys : list string) :
  is_Some (SelectFiles.session_loop key_to_index selected keys)
  <-> Py.LF ∈ keys.
Proof.
  split.
  - intros [result Hrun].
    destruct (decide (Py.LF ∈ keys)) as [|Hno]; [done|].
    by rewrite session_loop_waits in Hrun.
  - intros Hin.
    assert (exists pressed rest,
              keys = pressed ++ Py.LF :: rest /\ Py.LF ∉ pressed)
      as (pressed & rest & -> & Hno).
    { induction keys as [|key keys IH]; [by apply elem_of_nil in Hin|].
      destruct (decide (key = Py.LF)) as [->|Hkey].
      - exists [], keys. split; [done|]. by intros ?%elem_of_nil.
      - apply elem_of_cons in Hin as [?|Hin]; [done|].
        destruct (IH Hin) as (pressed & rest & -> & Hno).
        exists (key :: pressed), rest. split; [done|].
        by apply not_elem_of_cons. }
    destruct (session_loop_parity key_to_index pressed rest Hno selected)
      as (result & -> & _).
    by exists result.
Qed.

(** X10. The session returns a selection exactly when Enter is among the
    keys: no other key ends it, and without Enter it goes on waiting for
    input. *)
Theorem session_ends_exactly_on_enter
    (files : list Os.path) (key_mapping : Py.dict nat string)
    (root_dir : Os.path) (keys : list string) :
  is_Some (SelectFiles.interactive_file_selection files key_mapping
             root_dir keys)
  <-> Py.LF ∈ keys.
Proof. apply session_loop_returns. Qed.

(** ** The outcomes of the concatenation *)

Section ConcatenationOutcomes.

Variable exists_ : Os.path -> bool.
Variable open_read_locale : Os.path -> SelectFiles.read_result.
Variable open_read : Os.path -> SelectFiles.read_result.
Variable open_write : Os.path -> option Os.read_error.
Variable outfile_write : string -> string -> option Os.read_error.
Variable outfile_close : option Os.read_error.
Variable order : Py.set_order.
Variable selected : gset nat.
Variable files : list Os.path.
Variable root_dir : Os.path.

Lemma tree_raises_unique (e e' : Os.read_error) :
  tree_raises exists_ open_read_locale outfile_write root_dir e ->
  tree_raises exists_ open_read_locale outfile_write root_dir e' ->
  e = e'.
Proof.
  intros [_ [Hread|(c & Hread & Hwrite)]] [_ [Hread'|(c' & Hread' & Hwrite')]];
    congruence.
Qed.

(** The state the copy to the clipboard leaves. *)
Lemma copy_to_clipboard_fields clipboard_works st output_file :
  let st' := SelectFiles.copy_to_clipboard clipboard_works st output_file in
  SelectFiles.output_content st' = SelectFiles.output_content st /\
  SelectFiles.outfile st' = SelectFiles.outfile st /\
  SelectFiles.clipboard st'
  = (if clipboard_works then Some (SelectFiles.output_content st)
     else SelectFiles.clipboard st).
Proof. unfold SelectFiles.copy_to_clipboard. by destruct clipboard_works. Qed.

(** How the concatenation ends, and on what. *)
Lemma concatenate_cases clipboard_works :
  match SelectFiles.concatenate_selected_files exists_ open_read_locale
          open_read open_write outfile_write outfile_close clipboard_works
          order selected files root_dir with
  | Os.Done st =>
      open_write (Os.join root_dir "concatenated_output.txt") = None /\
      outfile_close = None /\
      tree_included exists_ open_read_locale outfile_write root_dir /\
      (forall idx, idx ∈ selected -> idx < length files) /\
      SelectFiles.clipboard st
      = (if clipboard_works then Some (SelectFiles.output_content st)
         else None)
  | Os.Raise exn =>
      (exists e,
         exn = Os.FileError e /\
         (open_write (Os.join root_dir "concatenated_output.txt") = Some e \/
          (open_write (Os.join root_dir "concatenated_output.txt") = None /\
           outfile_close = Some e) \/
          (open_write (Os.join root_dir "concatenated_output.txt") = None /\
           outfile_close = None /\
           tree_raises exists_ open_read_locale outfile_write root_dir e))) \/
      (exn = Os.IndexError /\
       open_write (Os.join root_dir "concatenated_output.txt") = None /\
       outfile_close = None /\
       tree_included exists_ open_read_locale outfile_write root_dir /\
       exists idx, idx ∈ selected /\ length files <= idx)
  end.
Proof.
  unfold SelectFiles.concatenate_selected_files.
  pose proof (fill_output_file_cases exists_ open_read_locale open_read
                open_write outfile_write outfile_close order files
                selected root_dir) as Hcases.
  destruct (SelectFiles.fill_output_file _ _ _ _ _ _ _ _ _ _ _ _)
    as [st|exn]; [|done]. simpl.
  destruct Hcases as (Hopen & Hclose & Htree & Hrange & Hclip).
  do 4 (split; [done|]).
  destruct (copy_to_clipboard_fields clipboard_works st
              (Os.join root_dir "concatenated_output.txt"))
    as (-> & _ & ->).
  by rewrite Hclip.
Qed.



End ConcatenationOutcomes.



(** X12. In terms of what its file operations answer, the concatenation
    raises in these cases only. It raises the exception of opening the
    output file; failing that, the exception of closing it; failing
    that, the exception of reading [tree.txt] or of writing its block,
    when that file exists, before any selected file is looked at; and it
    raises [IndexError] when none of these happens and some selected
    index is not the index of a file. Otherwise it ends normally: no read
    or write of a selected file makes it raise. *)
Theorem concatenation_raises_exactly
    (exists_ : Os.path -> bool)
    (open_read_locale open_read : Os.path -> SelectFiles.read_result)
    (open_write : Os.path -> option Os.read_error)
    (outfile_write : string -> string -> option Os.read_error)
    (outfile_close : option Os.read_error)
    (clipboard_works : bool) (order : Py.set_order)
    (selected : gset nat) (files : list Os.path) (root_dir : Os.path) :
  (forall err,
     SelectFiles.concatenate_selected_files exists_ open_read_locale
       open_read open_write outfile_write outfile_close clipboard_works
       order selected files root_dir
     = Os.Raise (Os.FileError err)
     <->
     open_write (Os.join root_dir "concatenated_output.txt") = Some err \/
     (open_write (Os.join root_dir "concatenated_output.txt") = None /\
      outfile_close = Some err) \/
     (open_write (Os.join root_dir "concatenated_output.txt") = None /\
      outfile_close = None /\
      tree_raises exists_ open_read_locale outfile_write root_dir err)) /\
  (SelectFiles.concatenate_selected_files exists_ open_read_locale
     open_read open_write outfile_write outfile_close clipboard_works
     order selected files root_dir
   = Os.Raise Os.IndexError
   <->
   open_write (Os.join root_dir "concatenated_output.txt") = None /\
   outfile_close = None /\
   tree_included exists_ open_read_locale outfile_write root_dir /\
   exists idx, idx ∈ selected /\ length files <= idx) /\
  ((exists st,
      SelectFiles.concatenate_selected_files exists_ open_read_locale
        open_read open_write outfile_write outfile_close clipboard_works
        order selected files root_dir = Os.Done st)
   <->
   open_write (Os.join root_dir "concatenated_output.txt") = None /\
   outfile_close = None /\
   tree_included exists_ open_read_locale outfile_write root_dir /\
   forall idx, idx ∈ selected -> idx < length files) /\
  SelectFiles.concatenate_selected_files exists_ open_read_locale
    open_read open_write outfile_write outfile_close clipboard_works
    order selected files root_dir
  <> Os.Raise Os.NotADirectoryError.
Proof.
  pose proof (concatenate_cases exists_ open_read_locale open_read
                open_write outfile_write outfile_close order selected
                files root_dir clipboard_works) as Hcases.
  pose proof (tree_raises_not_included exists_ open_read_locale
                outfile_write root_dir) as Hnot.
  pose proof (tree_raises_unique exists_ open_read_locale outfile_write
                root_dir) as Huniq.
  destruct (SelectFiles.concatenate_selected_files _ _ _ _ _ _ _ _ _ _ _)
    as [st|exn].
  - destruct Hcases as (Hopen & Hclose & Htree & Hrange & _).
    split; [|split; [|split]]; [| | |done].
    + intros err. split; [done|].
      intros [?|[[_ ?]|(_ & _ & Hraises)]]; [congruence..|].
      destruct (Hnot _ Hraises Htree).
    + split; [done|]. intros (_ & _ & _ & idx & Hidx & Hlen).
      apply Hrange in Hidx. lia.
    + split; [done|]. by eexists.
  - destruct Hcases
      as [(e & -> & Hcases)|(-> & Hopen & Hclose & Htree & idx & Hidx & Hlen)].
    + split; [|split; [|split]]; [| | |done].
      * intros err. split; [by intros [= <-]|]. intros Herr. f_equal. f_equal.
        destruct Hcases as [?|[[? ?]|(? & ? & ?)]],
                 Herr as [?|[[? ?]|(? & ? & ?)]];
          try congruence.
        by eapply Huniq.
      * split; [done|]. intros (Hopen & Hclose & Htree & _).
        destruct Hcases as [?|[[_ ?]|(_ & _ & Hraises)]]; [congruence..|].
        destruct (Hnot _ Hraises Htree).
      * split; [by intros [st Hst]|]. intros (Hopen & Hclose & Htree & _).
        destruct Hcases as [?|[[_ ?]|(_ & _ & Hraises)]]; [congruence..|].
        destruct (Hnot _ Hraises Htree).
    + split; [|split; [|split]]; [| | |done].
      * intros err. split; [done|].
        intros [?|[[_ ?]|(_ & _ & Hraises)]]; [congruence..|].
        destruct (Hnot _ Hraises Htree).
      * split; [|done]. intros _. do 3 (split; [done|]). by exists idx.
      * split; [by intros [st Hst]|]. intros (_ & _ & _ & Hrange).
        apply Hrange in Hidx. lia.
Qed.

(** ** The outcomes of the picker *)




(** ** The table on the screen *)

Lemma split_last_dot_join (name root ext : string) :
  Os.split_last_dot name = Some (root, ext) ->
  root +:+ ext = name /\ Py.startswith_char "." ext = true.
Proof.
  revert root ext. induction name as [|c name IH]; intros root ext; simpl.
  { done. }
  destruct (Os.split_last_dot name) as [[root' ext']|].
  - intros [= <- <-]. destruct (IH root' ext' eq_refl) as [<- Hdot].
    by rewrite append_cons.
  - destruct (Ascii.eqb c ".") eqn:Hc; [|done]. intros [= <- <-].
    split; [done|]. simpl. exact Hc.
Qed.

(** The two parts [os.path.splitext] returns make up the name, and the
    extension is empty or begins with a dot. *)
Lemma splitext_join (name : string) :
  (Os.splitext name).1 +:+ (Os.splitext name).2 = name /\
  ((Os.splitext name).2 = "" \/
   Py.startswith_char "." (Os.splitext name).2 = true).
Proof.
  unfold Os.splitext.
  destruct (Os.split_last_dot name) as [[root ext]|] eqn:Hsplit; simpl.
  - destruct (Os.only_dots root); simpl.
    + split; [apply append_nil_r|by left].
    + apply split_last_dot_join in Hsplit as [? ?]. split; [done|by right].
  - split; [apply append_nil_r|by left].
Qed.

Lemma palette_lookup (i : nat) :
  exists color,
    Py.getitem SelectFiles.get_folder_colors
      (i mod length SelectFiles.get_folder_colors) = Some color /\
    color ∈ SelectFiles.get_folder_colors.
Proof.
  destruct (lookup_lt_is_Some_2 SelectFiles.get_folder_colors
              (i mod length SelectFiles.get_folder_colors)) as [color Hc].
  { apply Nat.mod_upper_bound. simpl. lia. }
  exists color. split; [done|]. by eapply list_elem_of_lookup_2.
Qed.

Lemma enumerate_snoc {A} (l : list A) (x : A) :
  SelectFiles.enumerate (l ++ [x])
  = SelectFiles.enumerate l ++ [(length l, x)].
Proof.
  unfold SelectFiles.enumerate. rewrite imap_app. simpl.
  by rewrite Nat.add_0_r.
Qed.

(** The colours given to a list of distinct folders: the folder at
    position [i] gets the colour at position [i mod 16] of the palette,
    and no other folder gets one. *)
Lemma folder_colors_of (folders : list Os.path) :
  NoDup folders ->
  exists colors : gmap Os.path string,
    foldl (fun acc item =>
             d ← acc;
             color ← Py.getitem SelectFiles.get_folder_colors
                       (item.1 mod length SelectFiles.get_folder_colors);
             Some (<[item.2 := color]> d))
          (Some ∅) (SelectFiles.enumerate folders) = Some colors /\
    (forall i folder,
       folders !! i = Some folder ->
       colors !! folder
       = Py.getitem SelectFiles.get_folder_colors
           (i mod length SelectFiles.get_folder_colors)) /\
    (forall folder, is_Some (colors !! folder) -> folder ∈ folders).
Proof.
  induction folders as [|folder folders IH] using rev_ind; intros Hnd.
  { exists ∅. split; [done|]. split; [done|].
    intros folder [color Hc]. by rewrite lookup_empty in Hc. }
  apply NoDup_app in Hnd as (Hnd & Hfresh & _).
  destruct (IH Hnd) as (colors & Hrun & Hat & Hdom).
  destruct (palette_lookup (length folders)) as (color & Hcolor & _).
  exists (<[folder := color]> colors).
  rewrite enumerate_snoc, foldl_app, Hrun.
  cbn -[Nat.modulo length SelectFiles.get_folder_colors Py.getitem].
  rewrite Hcolor. cbn [mbind option_bind].
  split; [done|]. split.
  - intros i f Hi. apply lookup_app_Some in Hi as [Hi|[Hlen Hi]].
    + rewrite lookup_insert_ne; [by apply Hat|].
      intros <-. apply (Hfresh folder); [|set_solver].
      by eapply list_elem_of_lookup_2.
    + apply list_lookup_singleton_Some in Hi as [Hi <-].
      replace i with (length folders) by lia.
      by rewrite lookup_insert_eq.
  - intros f Hf. apply elem_of_app.
    destruct (decide (f = folder)) as [->|Hne]; [right; set_solver|].
    rewrite lookup_insert_ne in Hf by done. left. by apply Hdom.
Qed.

Lemma palette_distinct : NoDup SelectFiles.get_folder_colors.
Proof. apply (bool_decide_unpack _). by vm_compute. Qed.

(** The table of colours is built without an exception and gives every
    folder of a listed file, and no other, a colour of the palette. *)
Lemma assign_folder_colors_covers (files : list Os.path) :
  exists colors,
    SelectFiles.assign_folder_colors files = Some colors /\
    (forall i folder,
       elements (list_to_set (Os.dirname <$> files) : gset Os.path) !! i
       = Some folder ->
       colors !! folder
       = Py.getitem SelectFiles.get_folder_colors
           (i mod length SelectFiles.get_folder_colors)) /\
    (forall folder,
       is_Some (colors !! folder) <->
       exists file, file ∈ files /\ folder = Os.dirname file) /\
    (forall folder color,
       colors !! folder = Some color ->
       color ∈ SelectFiles.get_folder_colors).
Proof.
  unfold SelectFiles.assign_folder_colors.
  set (folders := list_to_set (Os.dirname <$> files) : gset Os.path).
  destruct (folder_colors_of (elements folders) (NoDup_elements folders))
    as (colors & Hrun & Hat & Hdom).
  exists colors. split; [done|]. split; [done|].
  assert (Hfolder : forall folder,
            folder ∈ elements folders <->
            exists file, file ∈ files /\ folder = Os.dirname file).
  { intros folder. unfold folders.
    rewrite elem_of_elements, elem_of_list_to_set, list_elem_of_fmap.
    naive_solver. }
  split.
  - intros folder. rewrite <- Hfolder. split; [apply Hdom|].
    intros [i Hi]%list_elem_of_lookup_1. rewrite (Hat i folder Hi).
    destruct (palette_lookup i) as (color & -> & _). by eexists.
  - intros folder color Hcolor.
    assert (folder ∈ elements folders) as [i Hi]%list_elem_of_lookup_1
      by (apply Hdom; by eexists).
    rewrite (Hat i folder Hi) in Hcolor.
    destruct (palette_lookup i) as (color' & Hc & Hin). congruence.
Qed.

(** X14. The colours of the folders: building the table raises nothing,
    every folder that holds a listed file (and no other folder) gets a
    colour of the palette, and as long as there are at most sixteen
    folders no two of them share a colour. *)
Theorem folder_colors_cover_and_separate (files : list Os.path) :
  exists colors,
    SelectFiles.assign_folder_colors files = Some colors /\
    (forall folder,
       is_Some (colors !! folder) <->
       exists file, file ∈ files /\ folder = Os.dirname file) /\
    (forall folder color,
       colors !! folder = Some color ->
       color ∈ SelectFiles.get_folder_colors) /\
    (size (list_to_set (Os.dirname <$> files) : gset Os.path) <= 16 ->
     forall folder folder' color,
       colors !! folder = Some color ->
       colors !! folder' = Some color ->
       folder = folder').
Proof.
  destruct (assign_folder_colors_covers files)
    as (colors & Hrun & Hat & Hdom & Hpal).
  exists colors. split; [done|]. split; [done|]. split; [done|].
  intros Hsize folder folder' color Hc Hc'.
  set (folders := list_to_set (Os.dirname <$> files) : gset Os.path) in *.
  assert (Hindex : forall f,
            colors !! f = Some color ->
            exists i, elements folders !! i = Some f /\
                      SelectFiles.get_folder_colors !! i = Some color).
  { intros f Hf.
    assert (f ∈ elements folders) as [i Hi]%list_elem_of_lookup_1.
    { unfold folders.
      rewrite elem_of_elements, elem_of_list_to_set, list_elem_of_fmap.
      destruct (proj1 (Hdom f)) as (file & ? & ->); [by eexists|].
      by exists file. }
    exists i. split; [done|].
    rewrite (Hat i f Hi) in Hf. unfold Py.getitem in Hf.
    rewrite Nat.mod_small in Hf; [done|].
    apply lookup_lt_Some in Hi. unfold size, set_size in Hsize. simpl in *.
    lia. }
  destruct (Hindex folder Hc) as (i & Hi & Hci).
  destruct (Hindex folder' Hc') as (j & Hj & Hcj).
  assert (i = j) as ->
    by exact (NoDup_lookup _ i j color palette_distinct Hci Hcj).
  congruence.
Qed.

(** X15. The table shown to the user is built without an exception (the
    colour of every folder is found) and has one row per file, in the
    order of the list. The row of a file shows the selection mark exactly
    when its index is selected, the key of the index or [?] when it has
    none, the name and the extension that together make up the file
    name, and the name of its folder. *)
Theorem display_files_rows
    (files : list Os.path) (selected : gset nat)
    (key_mapping : Py.dict nat string) :
  exists rows,
    SelectFiles.display_files files selected key_mapping = Some rows /\
    length rows = length files /\
    forall idx file,
      files !! idx = Some file ->
      exists r name color,
        rows !! idx = Some r /\
        (SelectFiles.selected_mark r <> "" <-> idx ∈ selected) /\
        SelectFiles.key_cell r
        = default "?" (Py.dict_get key_mapping idx) /\
        color ∈ SelectFiles.get_folder_colors /\
        SelectFiles.filename_cell r
        = "[" +:+ color +:+ "]" +:+ name +:+ "[/" +:+ color +:+ "]" /\
        name +:+ SelectFiles.extension_cell r = Os.basename file /\
        SelectFiles.folder_cell r = Os.basename (Os.dirname file).
Proof.
  unfold SelectFiles.display_files.
  destruct (assign_folder_colors_covers files)
    as (colors & -> & _ & Hdom & Hpal). simpl.
  assert (Hcolor : forall file, file ∈ files ->
                     is_Some (colors !! Os.dirname file)).
  { intros file Hfile. apply Hdom. by exists file. }
  match goal with
  | |- exists rows, mapM ?f _ = Some rows /\ _ => set (cells := f)
  end.
  assert (Hsome : is_Some (mapM cells (SelectFiles.enumerate files))).
  { apply mapM_is_Some, Forall_forall. intros [idx file] Hin.
    apply elem_of_lookup_imap in Hin as (i & f & [= -> ->] & Hf).
    unfold cells. simpl. destruct (Os.splitext _) as [name ext].
    destruct (Hcolor f) as [color ->]; [|done].
    by eapply list_elem_of_lookup_2. }
  destruct Hsome as [rows Hrows]. exists rows. split; [done|].
  apply mapM_Some in Hrows.
  pose proof (Forall2_length _ _ _ Hrows) as Hlen.
  unfold SelectFiles.enumerate in Hlen. rewrite length_imap in Hlen.
  split; [done|].
  intros idx file Hfile.
  assert (Hitem : SelectFiles.enumerate files !! idx = Some (idx, file)).
  { unfold SelectFiles.enumerate. by rewrite list_lookup_imap, Hfile. }
  destruct (Forall2_lookup_l _ _ _ _ _ Hrows Hitem) as (r & Hr & Hcells).
  unfold cells in Hcells. simpl in Hcells.
  pose proof (splitext_join (Os.basename file)) as [Hjoin _].
  destruct (Os.splitext (Os.basename file)) as [name ext]. simpl in Hjoin.
  destruct (colors !! Os.dirname file) as [color|] eqn:Hc; [|done].
  simpl in Hcells. injection Hcells as <-.
  eexists _, name, color. split; [exact Hr|]. simpl.
  split; [by destruct (decide (idx ∈ selected))|].
  split; [done|]. split; [by eapply Hpal|]. done.
Qed.

(** ** The lines of the printer *)

Section PrinterLines.

Variable fnmatch : string -> string -> bool.
Variable self : FolderStructureGenerator.t.
Variable patterns : list string.

Lemma recurse_line_shape dir :
  forall dir_path prefix p text,
    (p, text) ∈ FolderStructureGenerator.recurse fnmatch self patterns dir
                  dir_path prefix ->
    exists rel n units mark,
      p = dir_path ++ rel /\
      entry_at (children_of dir) rel n /\
      length units + 1 = length rel /\
      Forall indent_unit units /\
      connector mark /\
      text = prefix +:+ indentation units +:+ mark +:+ Os.name_of n
             +:+ (if Os.isdir n then "/" else "").
Proof.
  induction dir as [name|name children IH] using node_rect';
    intros dir_path prefix p text Hp; simpl in Hp.
  { by apply elem_of_nil in Hp. }
  apply list_elem_of_In, in_concat in Hp as (lines & Hlines & Hp).
  apply list_elem_of_In, elem_of_lookup_imap in Hlines as (i & e & -> & He).
  apply list_elem_of_lookup_2, visible_elem in He as (He & _).
  apply list_elem_of_In, in_map_iff in He as (c & <- & Hc).
  apply list_elem_of_In in Hc, Hp.
  unfold FolderStructureGenerator.entry_lines in Hp. simpl in *.
  match type of Hp with
  | context [if ?b then "├── " else "└── "] => set (last := b) in *
  end.
  assert (Hmark : connector (if last then "├── " else "└── "))
    by (destruct last; [by left|by right]).
  assert (Hunit : indent_unit (if last then "│   " else "    "))
    by (destruct last; [by left|by right]).
  destruct c as [file|d sub]; simpl in *.
  - apply list_elem_of_singleton in Hp. injection Hp as -> ->.
    exists [file], (Os.File file), [], (if last then "├── " else "└── ").
    split; [done|]. split; [by apply (entry_here children (Os.File file))|].
    split; [done|]. split; [done|]. split; [done|].
    simpl. by rewrite append_nil_r.
  - apply elem_of_cons in Hp as [Hp|Hp].
    + injection Hp as -> ->.
      exists [d], (Os.Dir d sub), [], (if last then "├── " else "└── ").
      split; [done|].
      split; [by apply (entry_here children (Os.Dir d sub))|].
      done.
    + rewrite Forall_forall in IH.
      destruct (IH _ Hc _ _ _ _ Hp)
        as (rel & n & units & mark & -> & Hat & Hlen & Hunits & Hm & ->).
      exists (d :: rel), n, ((if last then "│   " else "    ") :: units), mark.
      split; [unfold Os.join; by rewrite <- app_assoc|].
      split; [by eapply entry_below|].
      split; [simpl; lia|]. split; [by constructor|]. split; [done|].
      simpl. by rewrite !append_assoc.
Qed.

End PrinterLines.

(** X16. The shape of the lines of the printer. Every line below the
    header stands for an entry of the tree and is made of the prefix, one
    indentation unit (a bar or blanks, four columns wide) for each
    directory between the printed directory and the entry, a connector,
    and the name of the entry, followed by a separator when the entry is
    a directory. *)
Theorem printer_line_shape
    (fnmatch : string -> string -> bool)
    (self : FolderStructureGenerator.t) (patterns : list string)
    (name : string) (entries : list Os.node)
    (dir_path : Os.path) (prefix : string) (p : Os.path) (text : string) :
  (p, text) ∈ FolderStructureGenerator.recurse fnmatch self patterns
                (Os.Dir name entries) dir_path prefix ->
  exists rel n units mark,
    p = dir_path ++ rel /\
    entry_at entries rel n /\
    length units + 1 = length rel /\
    Forall indent_unit units /\
    connector mark /\
    text = prefix +:+ indentation units +:+ mark +:+ Os.name_of n
           +:+ (if Os.isdir n then "/" else "").
Proof. apply recurse_line_shape. Qed.

Lemma printer_line_shape_witness :
  (["home"; "proj"; "src"; "main.py"], "    └── main.py")
    ∈ FolderStructureGenerator.recurse Fnmatch.fnmatchcase sample_printer
        FolderStructureGenerator.DEFAULT_IGNORE_PATTERNS
        (Os.Dir "proj" cache_entries) sample_root "" /\
  exists rel n units mark,
    ["home"; "proj"; "src"; "main.py"] = sample_root ++ rel /\
    entry_at cache_entries rel n /\
    length units + 1 = length rel /\
    "    └── main.py"
    = "" +:+ indentation units +:+ mark +:+ Os.name_of n
      +:+ (if Os.isdir n then "/" else "").
Proof.
  assert (Hin : (["home"; "proj"; "src"; "main.py"], "    └── main.py")
                  ∈ FolderStructureGenerator.recurse Fnmatch.fnmatchcase
                      sample_printer
                      FolderStructureGenerator.DEFAULT_IGNORE_PATTERNS
                      (Os.Dir "proj" cache_entries) sample_root "").
  { vm_compute.
    repeat first [apply list_elem_of_here | apply list_elem_of_further]. }
  split; [exact Hin|].
  destruct (printer_line_shape Fnmatch.fnmatchcase sample_printer
              FolderStructureGenerator.DEFAULT_IGNORE_PATTERNS "proj"
              cache_entries sample_root "" _ _ Hin)
    as (rel & n & units & mark & Hp & Hat & Hlen & _ & _ & Htext).
  by exists rel, n, units, mark.
Defined.

(** ** The order of enumeration *)

Lemma leb_trans (a b c : string) :
  String.leb a b = true -> String.leb b c = true -> String.leb a c = true.
Proof.
  intros Hab Hbc. apply Is_true_true.
  apply (transitivity (R := String.le) (y := b)); by apply Is_true_true.
Qed.

Lemma leb_false (a b : string) :
  String.leb a b = false -> String.leb b a = true.
Proof.
  intros Hab. destruct (String.leb_total a b) as [H|H]; [congruence|done].
Qed.

(** Two entries with different keys can be put in place in either
    order. *)
Lemma insert_sorted_comm {A} (key : A -> string) (x y : A) (l : list A) :
  key x <> key y ->
  Py.insert_sorted key x (Py.insert_sorted key y l)
  = Py.insert_sorted key y (Py.insert_sorted key x l).
Proof.
  intros Hne. induction l as [|z l IH]; simpl.
  - destruct (String.leb (key x) (key y)) eqn:Hxy,
             (String.leb (key y) (key x)) eqn:Hyx; try done.
    + by apply String.leb_antisym in Hxy.
    + apply leb_false in Hxy. congruence.
  - destruct (String.leb (key y) (key z)) eqn:Hyz,
             (String.leb (key x) (key z)) eqn:Hxz; simpl;
      rewrite ?Hyz, ?Hxz.
    + destruct (String.leb (key x) (key y)) eqn:Hxy,
               (String.leb (key y) (key x)) eqn:Hyx; simpl;
        rewrite ?Hyz, ?Hxz; try done.
      * by apply String.leb_antisym in Hxy.
      * apply leb_false in Hxy. congruence.
    + destruct (String.leb (key x) (key y)) eqn:Hxy; simpl;
        rewrite ?Hxz; [|done].
      by rewrite (leb_trans _ _ _ Hxy Hyz) in Hxz.
    + destruct (String.leb (key y) (key x)) eqn:Hyx; simpl;
        rewrite ?Hyz; [|done].
      by rewrite (leb_trans _ _ _ Hyx Hxz) in Hyz.
    + by rewrite IH.
Qed.

Section Reordering.

Variable fnmatch : string -> string -> bool.
Variable self : FolderStructureGenerator.t.
Variable patterns : list string.

Lemma alike_refl e : alike e e.
Proof. by repeat split. Qed.

Lemma alike_trans e1 e2 e3 : alike e1 e2 -> alike e2 e3 -> alike e1 e3.
Proof.
  intros (? & ? & H12) (? & ? & H23).
  repeat split; [congruence..|]. intros. by rewrite H12.
Qed.

Lemma insert_sorted_alike x y l l' :
  alike x y -> Forall2 alike l l' ->
  Forall2 alike
    (Py.insert_sorted FolderStructureGenerator.entry_name x l)
    (Py.insert_sorted FolderStructureGenerator.entry_name y l').
Proof.
  intros Hxy Hl. induction Hl as [|z z' l l' Hz Hl IH]; simpl.
  { constructor; [done|constructor]. }
  pose proof Hxy as (Hname & _). pose proof Hz as (Hzname & _).
  rewrite <- Hname, <- Hzname.
  destruct (String.leb _ _).
  - constructor; [done|]. by constructor.
  - by constructor.
Qed.

Lemma filter_alike (keep : FolderStructureGenerator.listed -> bool) l l' :
  (forall e e', alike e e' -> keep e = keep e') ->
  Forall2 alike l l' ->
  Forall2 alike (List.filter keep l) (List.filter keep l').
Proof.
  intros Hkeep. induction 1 as [|e e' l l' He Hl IH]; simpl; [done|].
  rewrite <- (Hkeep e e' He). destruct (keep e); [by constructor|done].
Qed.

Lemma imap_alike {B} (g : nat -> FolderStructureGenerator.listed -> B) l l' :
  (forall i e e', alike e e' -> g i e = g i e') ->
  Forall2 alike l l' -> imap g l = imap g l'.
Proof.
  intros Hg Hl. revert g Hg.
  induction Hl as [|e e' l l' He Hl IH]; intros g Hg; simpl; [done|].
  f_equal; [by apply Hg|]. apply IH. intros i. apply Hg.
Qed.

Lemma reordered_alike x y :
  reordered x y -> Os.name_of x = Os.name_of y /\ Os.isdir x = Os.isdir y.
Proof. by destruct 1. Qed.

(** The lines of a tree do not change when its directories are
    enumerated in another order. *)
Lemma recurse_reordered t t' :
  reordered t t' ->
  forall dir_path prefix,
    FolderStructureGenerator.recurse fnmatch self patterns t dir_path prefix
    = FolderStructureGenerator.recurse fnmatch self patterns t'
        dir_path prefix.
Proof.
  set (mk := fun c => FolderStructureGenerator.Listed (Os.name_of c)
                        (Os.isdir c)
                        (FolderStructureGenerator.recurse fnmatch self
                           patterns c)).
  apply (reordered_mut
    (fun t t' =>
       forall dir_path prefix,
         FolderStructureGenerator.recurse fnmatch self patterns t
           dir_path prefix
         = FolderStructureGenerator.recurse fnmatch self patterns t'
             dir_path prefix)
    (fun l l' =>
       Forall2 alike
         (Py.sorted_by FolderStructureGenerator.entry_name (List.map mk l))
         (Py.sorted_by FolderStructureGenerator.entry_name
            (List.map mk l')))).
  - done.
  - intros name entries entries' _ Hsorted dir_path prefix. simpl.
    fold mk.
    assert (Hvisible :
      Forall2 alike
        (FolderStructureGenerator.visible fnmatch self patterns
           (List.map mk entries))
        (FolderStructureGenerator.visible fnmatch self patterns
           (List.map mk entries'))).
    { unfold FolderStructureGenerator.visible.
      apply filter_alike; [by intros e e' (-> & _)|].
      apply filter_alike; [by intros e e' (-> & _)|]. done. }
    rewrite <- (Forall2_length _ _ _ Hvisible).
    f_equal. apply imap_alike; [|done].
    intros i e e' (Hname & Hdir & Hdescend).
    unfold FolderStructureGenerator.entry_lines.
    by rewrite Hname, Hdir, Hdescend.
  - constructor.
  - intros x y l l' Hxy Hrec _ Hl. simpl. unfold Py.sorted_by. simpl.
    apply insert_sorted_alike; [|done].
    destruct (reordered_alike x y Hxy) as [Hname Hdir].
    by repeat split.
  - intros x y l Hne. unfold Py.sorted_by. simpl.
    rewrite insert_sorted_comm by done.
    apply Forall2_same_length_lookup_2; [done|].
    intros i e e' He He'. simplify_eq. apply alike_refl.
  - intros l1 l2 l3 _ H12 _ H23.
    eapply Forall2_trans; [|exact H12|exact H23]. apply alike_trans.
Qed.

End Reordering.

Lemma reordered_refl (t : Os.node) : reordered t t.
Proof.
  induction t as [name|name entries IH] using node_rect'; constructor.
  induction IH; by constructor.
Qed.

(** Any rearrangement of entries with distinct names is a reordering. *)
Lemma permutation_reordered (entries entries' : list Os.node) :
  entries ≡ₚ entries' ->
  NoDup (Os.name_of <$> entries) ->
  reordered_list entries entries'.
Proof.
  induction 1 as [|x l l' _ IH|x y l|l1 l2 l3 H12 IH12 _ IH23]; intros Hnd.
  - constructor.
  - apply NoDup_cons in Hnd as [_ Hnd].
    constructor; [apply reordered_refl|by apply IH].
  - apply reordered_swap. simpl in Hnd.
    apply NoDup_cons in Hnd as [Hfresh _].
    intros Heq. apply Hfresh. rewrite Heq. by left.
  - eapply reordered_trans; [by apply IH12|]. apply IH23.
    by rewrite <- H12.
Qed.

(** X17. The text of the printer does not depend on the order in which
    the operating system enumerates directories: two trees that differ
    only by the order of the entries of their directories, at any depth,
    give the same result, entries of one directory having distinct
    names. *)
Theorem printer_output_independent_of_enumeration_order
    (fnmatch : string -> string -> bool)
    (read_lines : Os.path -> option (list string))
    (self : FolderStructureGenerator.t)
    (current_directory : Os.path) (t t' : Os.node)
    (output_path : option string) :
  reordered t t' ->
  FolderStructureGenerator.generate_folder_structure_txt fnmatch read_lines
    self current_directory (Some t) output_path
  = FolderStructureGenerator.generate_folder_structure_txt fnmatch
      read_lines self current_directory (Some t') output_path.
Proof.
  intros Ht.
  pose proof (recurse_reordered fnmatch self
                (FolderStructureGenerator.load_ignore_patterns read_lines
                   self current_directory) t t' Ht) as Hlines.
  destruct Ht as [name|name entries entries' Hentries]; [done|].
  unfold FolderStructureGenerator.generate_folder_structure_txt.
  by rewrite Hlines.
Qed.

Lemma printer_output_independent_of_enumeration_order_witness :
  reordered
    (Os.Dir "proj" [Os.File "b"; Os.Dir "a" [Os.File "y"; Os.File "x"]])
    (Os.Dir "proj" [Os.Dir "a" [Os.File "x"; Os.File "y"]; Os.File "b"]) /\
  FolderStructureGenerator.generate_folder_structure_txt Fnmatch.fnmatchcase
    (fun _ => None) sample_printer sample_root
    (Some (Os.Dir "proj"
             [Os.File "b"; Os.Dir "a" [Os.File "y"; Os.File "x"]])) None
  = FolderStructureGenerator.generate_folder_structure_txt
      Fnmatch.fnmatchcase (fun _ => None) sample_printer sample_root
      (Some (Os.Dir "proj"
               [Os.Dir "a" [Os.File "x"; Os.File "y"]; Os.File "b"])) None.
Proof.
  assert (Hre : reordered
            (Os.Dir "proj"
               [Os.File "b"; Os.Dir "a" [Os.File "y"; Os.File "x"]])
            (Os.Dir "proj"
               [Os.Dir "a" [Os.File "x"; Os.File "y"]; Os.File "b"])).
  { constructor.
    apply (reordered_trans _
             [Os.Dir "a" [Os.File "y"; Os.File "x"]; Os.File "b"]).
    - apply reordered_swap. discriminate.
    - constructor; [|constructor; [constructor|constructor]].
      constructor. apply reordered_swap. discriminate. }
  split; [exact Hre|].
  exact (printer_output_independent_of_enumeration_order
           Fnmatch.fnmatchcase (fun _ => None) sample_printer sample_root
           _ _ None Hre).
Defined.

(** ** The order of the siblings *)

Lemma insert_sorted_ascending {A} (key : A -> string) (x : A) (l : list A) :
  ascending (key <$> l) -> ascending (key <$> Py.insert_sorted key x l).
Proof.
  induction l as [|z l IH]; simpl; [done|].
  intros [Hz Hl]. destruct (String.leb (key x) (key z)) eqn:Hxz; simpl.
  - split; [|done]. constructor; [done|].
    eapply Forall_impl; [exact Hz|]. simpl. intros y Hy.
    by eapply leb_trans.
  - split; [|by apply IH].
    rewrite insert_sorted_perm. simpl.
    constructor; [by apply leb_false|done].
Qed.

Lemma sorted_by_ascending {A} (key : A -> string) (l : list A) :
  ascending (key <$> Py.sorted_by key l).
Proof.
  unfold Py.sorted_by. induction l as [|x l IH]; simpl; [done|].
  by apply insert_sorted_ascending.
Qed.

Lemma filter_ascending {A} (key : A -> string) (keep : A -> bool)
    (l : list A) :
  ascending (key <$> l) -> ascending (key <$> List.filter keep l).
Proof.
  induction l as [|x l IH]; simpl; [done|].
  intros [Hx Hl]. destruct (keep x); simpl; [|by apply IH].
  split; [|by apply IH].
  apply Forall_forall. intros name (y & -> & Hy)%list_elem_of_fmap.
  apply list_elem_of_In, filter_In in Hy as [Hy _].
  rewrite Forall_forall in Hx. apply Hx, list_elem_of_fmap.
  exists y. split; [done|]. by apply list_elem_of_In.
Qed.

(** X18. The entries the printer shows for a directory are in ascending
    order of their names, whatever the order in which the directory was
    enumerated, and they are the entries of the listing that are not the
    ignore file and that no pattern matches. *)
Theorem printer_siblings_ascending
    (fnmatch : string -> string -> bool)
    (self : FolderStructureGenerator.t) (patterns : list string)
    (listing : list FolderStructureGenerator.listed) :
  ascending (FolderStructureGenerator.entry_name <$>
               FolderStructureGenerator.visible fnmatch self patterns
                 listing) /\
  forall e,
    e ∈ FolderStructureGenerator.visible fnmatch self patterns listing <->
    e ∈ listing /\
    admissible fnmatch self patterns (FolderStructureGenerator.entry_name e).
Proof.
  split; [|intros e; apply visible_elem].
  unfold FolderStructureGenerator.visible.
  apply filter_ascending, filter_ascending, sorted_by_ascending.
Qed.



(** ** No file twice *)

Lemma distinct_names_dir (name : string) (entries : list Os.node) :
  distinct_names (Os.Dir name entries) <->
  NoDup (Os.name_of <$> entries) /\ Forall distinct_names entries.
Proof.
  simpl. apply and_iff_compat_l.
  induction entries as [|e entries IH]; [by split; [constructor|]|].
  rewrite Forall_cons, IH. done.
Qed.

Lemma filter_names_distinct (keep : Os.node -> bool)
    (entries : list Os.node) :
  NoDup (Os.name_of <$> entries) ->
  NoDup (Os.name_of <$> List.filter keep entries).
Proof.
  induction entries as [|e entries IH]; simpl; [done|].
  intros [Hfresh Hnd]%NoDup_cons. destruct (keep e); simpl; [|by apply IH].
  apply NoDup_cons. split; [|by apply IH].
  intros (y & Hy & Hin)%list_elem_of_fmap. apply Hfresh.
  apply list_elem_of_In, filter_In in Hin as [Hin _].
  apply list_elem_of_fmap. exists y. split; [done|]. by apply list_elem_of_In.
Qed.

Lemma filter_nodup {A} (keep : A -> bool) (l : list A) :
  NoDup l -> NoDup (List.filter keep l).
Proof.
  induction 1 as [|x l Hfresh _ IH]; simpl; [constructor|].
  destruct (keep x); [|done]. constructor; [|done].
  intros [Hin _]%list_elem_of_In%filter_In. by apply Hfresh, list_elem_of_In.
Qed.

Section PickerNoDup.

Variable fnmatch : string -> string -> bool.
Variable patterns : list string.
Variable root_dir : Os.path.

(** The files found below one directory entry begin with its path. *)
Lemma walk_below_entry dirpath d p :
  p ∈ (if Os.isdir d &&
          negb (SelectFiles.is_ignored fnmatch
                  (Os.join dirpath (Os.name_of d)) patterns root_dir)
       then SelectFiles.walk fnmatch patterns root_dir
              (Os.join dirpath (Os.name_of d)) d
       else []) ->
  exists rel, rel <> [] /\ p = dirpath ++ Os.name_of d :: rel.
Proof.
  destruct (Os.isdir d && negb _); [|by intros ?%elem_of_nil].
  intros (rel & Hrel & -> & _)%walk_listed. exists rel. split; [done|].
  unfold Os.join. by rewrite <- app_assoc.
Qed.

Lemma walk_nodup top :
  distinct_names top ->
  forall dirpath,
    NoDup (SelectFiles.walk fnmatch patterns root_dir dirpath top).
Proof.
  induction top as [name|name entries IH] using node_rect';
    intros Hwf dirpath; simpl; [constructor|].
  apply distinct_names_dir in Hwf as [Hnames Hwf].
  apply NoDup_app. split; [|split].
  - apply filter_nodup.
    assert (Inj (=) (=) (Os.join dirpath)) as Hinj.
    { intros a b Hab. unfold Os.join in Hab.
      apply app_inv_head in Hab. by injection Hab. }
    apply (NoDup_fmap_2 (Os.join dirpath)).
    by apply filter_names_distinct.
  - intros p Hfile Hsub.
    apply list_elem_of_In, filter_In in Hfile as [Hfile _].
    apply list_elem_of_In, list_elem_of_fmap in Hfile as (f & -> & _).
    apply list_elem_of_In, in_flat_map in Hsub as (d & _ & Hsub).
    apply list_elem_of_In, walk_below_entry in Hsub as (rel & Hrel & Heq).
    unfold Os.join in Heq. apply app_inv_head in Heq.
    injection Heq as _ Heq. by subst rel.
  - revert Hnames Hwf IH.
    induction entries as [|e entries IHentries]; simpl;
      intros Hnames Hwf IH; [constructor|].
    apply NoDup_cons in Hnames as [Hfresh Hnames].
    apply Forall_cons in Hwf as [Hwfe Hwf].
    apply Forall_cons in IH as [IHe IH].
    apply NoDup_app. split; [|split].
    + destruct (Os.isdir e && negb _); [by apply IHe|constructor].
    + intros p (rel & _ & ->)%walk_below_entry Hlater.
      apply list_elem_of_In, in_flat_map in Hlater as (d & Hd & Hp).
      apply list_elem_of_In, walk_below_entry in Hp as (rel' & _ & Heq).
      apply app_inv_head in Heq. injection Heq as Hname _.
      apply Hfresh. rewrite Hname. apply list_elem_of_fmap.
      exists d. split; [done|]. by apply list_elem_of_In.
    + by apply IHentries.
Qed.

End PickerNoDup.

(** X20. When sibling names are distinct in every directory, as they are
    in a file system, the flat file list of the picker holds no path
    twice: every file has one index and one key. *)
Theorem list_files_without_duplicates
    (fnmatch : string -> string -> bool)
    (read_lines : Os.path -> option (list string))
    (root_dir : Os.path) (name : string) (entries : list Os.node)
    (ignore_files : list Os.path) :
  distinct_names (Os.Dir name entries) ->
  NoDup (SelectFiles.list_files fnmatch read_lines root_dir entries
           ignore_files).
Proof.
  intros Hwf. unfold SelectFiles.list_files. apply walk_nodup.
  apply distinct_names_dir. by apply distinct_names_dir in Hwf.
Qed.

Lemma list_files_without_duplicates_witness :
  distinct_names (Os.Dir "proj" sample_entries) /\
  NoDup (SelectFiles.list_files Fnmatch.fnmatchcase sample_read_lines
           sample_root sample_entries
           [Os.join sample_root ".gitignore";
            Os.join sample_root ".selectignore"]).
Proof.
  assert (Hwf : distinct_names (Os.Dir "proj" sample_entries)).
  { simpl. repeat split; apply (bool_decide_unpack _); by vm_compute. }
  split; [exact Hwf|].
  exact (list_files_without_duplicates Fnmatch.fnmatchcase
           sample_read_lines sample_root "proj" sample_entries _ Hwf).
Defined.

(** ** Relative paths *)

Lemma fmap_flat_map {A B C} (g : B -> C) (f : A -> list B) (l : list A) :
  g <$> flat_map f l = flat_map (fun x => g <$> f x) l.
Proof.
  induction l as [|x l IH]; simpl; [done|]. by rewrite fmap_app, IH.
Qed.

Section RelativePaths.

Variable fnmatch : string -> string -> bool.
Variable patterns : list string.
Variable root_dir : Os.path.

(** Below the scanned directory only the relative path is tested. *)
Lemma is_ignored_rel (rel : list string) :
  rel <> [] ->
  SelectFiles.is_ignored fnmatch (root_dir ++ rel) patterns root_dir
  = ignored_rel fnmatch patterns rel.
Proof.
  intros Hrel. rewrite is_ignored_existsb. unfold ignored_rel, excludes.
  rewrite relpath_parts_below by done.
  assert (Os.basename (root_dir ++ rel) = List.last rel "") as ->; [|done].
  unfold Os.basename.
  destruct rel as [|x rel _] using rev_ind; [done|].
  by rewrite app_assoc, !last_last.
Qed.

Lemma walk_relative top :
  forall cur,
    SelectFiles.walk fnmatch patterns root_dir (root_dir ++ cur) top
    = app root_dir <$> rel_walk fnmatch patterns cur top.
Proof.
  induction top as [name|name entries IH] using node_rect';
    intros cur; simpl; [done|].
  rewrite fmap_app. f_equal.
  - generalize (Os.name_of <$>
                  List.filter (fun e => negb (Os.isdir e)) entries).
    intros names. induction names as [|file names IHnames]; [done|].
    rewrite !fmap_cons. cbn [List.filter].
    assert (Os.join (root_dir ++ cur) file = root_dir ++ (cur ++ [file]))
      as -> by (unfold Os.join; by rewrite <- app_assoc).
    rewrite is_ignored_rel by (by destruct cur).
    destruct (negb _); by rewrite ?fmap_cons, IHnames.
  - rewrite fmap_flat_map.
    induction IH as [|d entries Hd _ IHentries]; simpl; [done|].
    f_equal; [|done].
    assert (Os.join (root_dir ++ cur) (Os.name_of d)
            = root_dir ++ (cur ++ [Os.name_of d])) as ->
      by (unfold Os.join; by rewrite <- app_assoc).
    rewrite is_ignored_rel by (by destruct cur).
    destruct (Os.isdir d && negb _); [apply Hd|done].
Qed.

End RelativePaths.

(** X21. What the picker lists depends on the paths relative to the
    scanned directory only: for a tree and a list of patterns there is
    one list of relative paths such that, wherever the directory lies,
    the walk returns these paths below it, in that order. The components
    of the directory's own path match no pattern. *)
Theorem walk_depends_on_relative_paths_only
    (fnmatch : string -> string -> bool) (patterns : list string)
    (top : Os.node) :
  exists rels : list (list string),
    forall root_dir,
      SelectFiles.walk fnmatch patterns root_dir root_dir top
      = app root_dir <$> rels.
Proof.
  exists (rel_walk fnmatch patterns [] top). intros root_dir.
  rewrite <- (walk_relative fnmatch patterns root_dir top []).
  by rewrite app_nil_r.
Qed.

(** X22. Rearranging the entries of the scanned directory, their names
    being distinct, does not change the result of the printer. *)
Theorem printer_output_unchanged_by_permutation
    (fnmatch : string -> string -> bool)
    (read_lines : Os.path -> option (list string))
    (self : FolderStructureGenerator.t)
    (current_directory : Os.path) (name : string)
    (entries entries' : list Os.node) (output_path : option string) :
  entries ≡ₚ entries' ->
  NoDup (Os.name_of <$> entries) ->
  FolderStructureGenerator.generate_folder_structure_txt fnmatch read_lines
    self current_directory (Some (Os.Dir name entries)) output_path
  = FolderStructureGenerator.generate_folder_structure_txt fnmatch
      read_lines self current_directory (Some (Os.Dir name entries'))
      output_path.
Proof.
  intros Hperm Hnames.
  assert (Hre : reordered (Os.Dir name entries) (Os.Dir name entries'))
    by (constructor; by apply permutation_reordered).
  unfold FolderStructureGenerator.generate_folder_structure_txt.
  by rewrite (recurse_reordered fnmatch self _ _ _ Hre).
Qed.

Lemma printer_output_unchanged_by_permutation_witness :
  sample_entries ≡ₚ reverse sample_entries /\
  NoDup (Os.name_of <$> sample_entries) /\
  FolderStructureGenerator.generate_folder_structure_txt Fnmatch.fnmatchcase
    sample_read_lines sample_printer sample_root
    (Some (Os.Dir "proj" sample_entries)) None
  = FolderStructureGenerator.generate_folder_structure_txt
      Fnmatch.fnmatchcase sample_read_lines sample_printer sample_root
      (Some (Os.Dir "proj" (reverse sample_entries))) None.
Proof.
  assert (Hperm : sample_entries ≡ₚ reverse sample_entries)
    by (symmetry; apply reverse_Permutation).
  assert (Hnames : NoDup (Os.name_of <$> sample_entries))
    by (apply (bool_decide_unpack _); by vm_compute).
  split; [exact Hperm|]. split; [exact Hnames|].
  exact (printer_output_unchanged_by_permutation Fnmatch.fnmatchcase
           sample_read_lines sample_printer sample_root "proj"
           sample_entries (reverse sample_entries) None Hperm Hnames).
Defined.
